(** * PyOpticalTable: a shallow embedding of [pyopticaltable.py]

    The module draws optical layouts onto a matplotlib axis.  The embedding
    keeps the structure of the source: [Tools] (geometry helpers),
    [OpticalElement] (the handle returned by every placement), [OpticalTable]
    (the canvas and one method per optic) and [LaserBeam] (the beam router).

    Modelling choices.
    - Python floats are idealised as the real numbers [R]; [np.cos], [np.sin],
      [np.sqrt] and [np.pi] are [cos], [sin], [sqrt] and [PI].
    - The matplotlib axis is a mutable object shared by every method.  It is
      modelled as the log of the calls made to the plotting backend, in call
      order; a method is a state transformer over the table.
    - A Python exception leaves the axis as it was when the exception was
      raised, so the state is threaded through failures as well: a computation
      returns the final state together with [Ok v] or [Raise e]. *)

From Stdlib Require Import Reals Lra Lia List String ZArith Bool.
Import ListNotations.

Local Open Scope R_scope.

(** ** Exceptions and the state-and-exception monad *)

(** The exceptions the module can raise; a [ValueError] carries the text of
    the source's message. *)
Inductive exn : Type :=
| ValueError (msg : string)
| AssertionError
| ZeroDivisionError
| TypeError
| IndexError
| UnboundLocalError.

Inductive result (A : Type) : Type :=
| Ok (a : A)
| Raise (e : exn).

Arguments Ok {A} a.
Arguments Raise {A} e.

Definition M (S A : Type) : Type := S -> S * result A.

Definition ret {S A : Type} (a : A) : M S A := fun s => (s, Ok a).

Definition raise {S A : Type} (e : exn) : M S A := fun s => (s, Raise e).

Definition bind {S A B : Type} (m : M S A) (k : A -> M S B) : M S B :=
  fun s =>
    match m s with
    | (s', Ok a) => k a s'
    | (s', Raise e) => (s', Raise e)
    end.

Definition lift {S A : Type} (r : result A) : M S A := fun s => (s, r).

Declare Scope py_scope.
Delimit Scope py_scope with py.
Notation "x <- m ;; k" := (bind m (fun x => k))
  (at level 61, m at next level, right associativity) : py_scope.
Notation "m ;; k" := (bind m (fun _ => k))
  (at level 61, right associativity) : py_scope.

Local Open Scope py_scope.

(** [for a in l: body a] *)
Fixpoint for_ {S A : Type} (l : list A) (body : A -> M S unit) : M S unit :=
  match l with
  | [] => ret tt
  | a :: l' => body a ;; for_ l' body
  end.

(** [l[i]] on a Python list or tuple, for a non-negative index. *)
Definition getitem {A : Type} (l : list A) (i : nat) : result A :=
  match nth_error l i with
  | Some a => Ok a
  | None => Raise IndexError
  end.

(** [enumerate(l[0:-1])], indices only: the loops below do not use the
    values. *)
Definition enumerate_init {A : Type} (l : list A) : list nat :=
  seq 0 (List.length (removelast l)).

(** A value of any Python type a caller can hand to [set_label]: a number,
    a string or [None]. *)
Inductive pyval : Type :=
| VNum (r : R)
| VStr (s : string)
| VNone.

(** [a * 0.5] and [a + b] on values of any type: only numbers multiply by a
    float, and only two numbers add up to a number here. *)
Definition py_mul_float (a : pyval) (f : R) : result R :=
  match a with
  | VNum r => Ok (r * f)
  | _ => Raise TypeError
  end.

Definition py_add (a : R) (b : pyval) : result R :=
  match b with
  | VNum r => Ok (a + r)
  | _ => Raise TypeError
  end.

(** [v == s] for a string literal [s]: a value that is not a string is not
    equal to it. *)
Definition py_eq_str (v : pyval) (s : string) : bool :=
  match v with
  | VStr t => String.eqb t s
  | _ => false
  end.

(** The double quote character, and the texts of the two messages that
    contain it.  The first is written in the source on two lines joined by
    a backslash, which keeps the indentation of the second line inside the
    text. *)
Definition dq : string := String (Ascii.ascii_of_nat 34) EmptyString.

Definition label_pos_message : string :=
  ("Invalid label position - should be " ++ dq ++ "top" ++ dq ++ ", "
   ++ dq ++ "bottom" ++ dq ++ ", " ++ dq ++ "left" ++ dq
   ++ ",                   "
   ++ dq ++ "right" ++ dq ++ ", or " ++ dq ++ "centre" ++ dq ++ ".")%string.

Definition direction_message : string :=
  ("Allowed values for direction are " ++ dq ++ "L" ++ dq ++ " and "
   ++ dq ++ "R" ++ dq ++ ".")%string.

(** [s in t] for a tuple of strings [t]. *)
Definition str_in (s : string) (t : list string) : bool :=
  existsb (String.eqb s) t.

(** [a / b] on Python numbers: a zero divisor raises. *)
Definition truediv (a b : R) : result R :=
  if Req_dec_T b 0 then Raise ZeroDivisionError else Ok (a / b).

(** [float.is_integer].  It is applied to the exact quotient [truediv]
    gives; the code applies it to the quotient rounded to a float.  The two
    agree whenever the float division is exact, as it is for whole numbers
    that divide, so the grid assertion is only spoken of on such inputs. *)
Definition is_integer (r : R) : bool :=
  if Req_dec_T r (IZR (Int_part r)) then true else false.

(** [int(r)] truncates towards zero. *)
Definition py_int (r : R) : Z :=
  if Rle_dec 0 r then Int_part r else (- Int_part (- r))%Z.

(** [range(n)] *)
Definition range (n : Z) : list nat := seq 0 (Z.to_nat n).

(** ** Module constants *)

Definition allowed_types : list string :=
  ["mirror"; "concave_lens"; "convex_lens";
   "transmissive_plate"; "transmissive_cube";
   "beamsplitter_cube"; "generic_box";
   "box_source"; "point_source";
   "beam_dump"; "generic_circle";
   "concave_mirror"]%string.

Definition allowed_modes : list string := ["r"; "t"]%string.

Definition allowed_sides : list string := ["top"; "bottom"; "left"; "right"]%string.

(** [fontparams['fontsize']]; the other entries of [fontparams] are constants
    handed to every text call. *)
Definition fontparams_fontsize : R := 8.

(** ** Tools *)

Module Tools.

Definition inch_to_mm (x : R) : R := x * 25.4.

Definition mm_to_inch (x : R) : R := x / 25.4.

Definition deg_to_rad (x : R) : R := x * (PI / 180).

Definition rotate_point (point : R * R) (angle : R) (origin : R * R) : R * R :=
  let x_rot := (fst point - fst origin) * cos (deg_to_rad angle)
               - (snd point - snd origin) * sin (deg_to_rad angle) + fst origin in
  let y_rot := (fst point - fst origin) * sin (deg_to_rad angle)
               + (snd point - snd origin) * cos (deg_to_rad angle) + snd origin in
  (x_rot, y_rot).

Definition sind (x : R) : R := sin (deg_to_rad x).

Definition cosd (x : R) : R := cos (deg_to_rad x).

Definition get_midpoint (line : (R * R) * (R * R)) : R * R :=
  let point1 := fst line in
  let point2 := snd line in
  let midpoint_x := 0.5 * (fst point1 + fst point2) in
  let midpoint_y := 0.5 * (snd point1 + snd point2) in
  (midpoint_x, midpoint_y).

Definition get_label_coords (label_pos : string) (x y size labelpad : R)
  : result (R * R) :=
  let offset := (size * 0.5) + labelpad in
  if (label_pos =? "top")%string then Ok (x, y + offset)
  else if (label_pos =? "bottom")%string then Ok (x, y - offset)
  else if (label_pos =? "left")%string then Ok (x - offset, y)
  else if (label_pos =? "right")%string then Ok (x + offset, y)
  else if (label_pos =? "centre")%string then Ok (x, y)
  else Raise (ValueError label_pos_message).

(** [get_label_coords] again, on arguments of any Python type, as a call
    with misplaced arguments reaches it: the offset is computed first, and
    a position that is not a string is equal to none of the five names. *)
Definition get_label_coords_any (label_pos : pyval) (x y : R)
           (size labelpad : pyval) : result (R * R) :=
  match py_mul_float size 0.5 with
  | Raise e => Raise e
  | Ok half =>
      match py_add half labelpad with
      | Raise e => Raise e
      | Ok offset =>
          if py_eq_str label_pos "top" then Ok (x, y + offset)
          else if py_eq_str label_pos "bottom" then Ok (x, y - offset)
          else if py_eq_str label_pos "left" then Ok (x - offset, y)
          else if py_eq_str label_pos "right" then Ok (x + offset, y)
          else if py_eq_str label_pos "centre" then Ok (x, y)
          else Raise (ValueError label_pos_message)
      end
  end.

End Tools.

(** ** OpticalElement *)

Module OpticalElement.

(** The attributes [__init__] sets: the element type is checked and then
    dropped. *)
Record t : Type := mk {
  x : R;
  y : R;
  mode : string;
  angle : option R
}.

Definition __init__ (x y : R) (mode : string) (angle : option R)
           (element_type : option string) : result t :=
  if negb (str_in mode allowed_modes) then
    Raise (ValueError "Invalid mode type.")
  else if negb (match element_type with
                | Some ty => str_in ty allowed_types
                | None => false
                end) then
    Raise (ValueError "Invalid element type.")
  else Ok (mk x y mode angle).

End OpticalElement.

(** ** The plotting backend

    Every call the module makes to matplotlib is logged with its arguments.
    [linestyle]/[ls] and [linewidth]/[lw] are matplotlib aliases and share a
    field; a keyword the call does not pass is [None]. *)

Record plot_kw : Type := mk_kw {
  color : string;
  linestyle : option string;
  linewidth : option R;
  zorder : option Z;
  visible : option bool
}.

(** [color=c] and nothing else. *)
Definition kw_color (c : string) : plot_kw := mk_kw c None None None None.

Inductive text_content : Type :=
| Str (s : string)        (* a string passed as it is *)
| StrOfFloat (r : R).     (* [str(r)] *)

Inductive backend_call : Type :=
| Figure (figsize : R * R)
| AxisOff
| Plot (xs ys : list R) (kw : plot_kw)
| Text (x y : R) (s : text_content) (color : option string) (fontsize : option R)
| AddArc (xy : R * R) (width height angle theta1 theta2 : R) (color : string)
| AddCircle (xy : R * R) (radius : R) (edgecolor : string) (fill : bool)
            (facecolor : string)
| FillBetween (l1 l2 l3 : list R) (color : string) (zorder : Z).

Definition Axes : Type := list backend_call.

(** A call on the current pyplot axis. *)
Definition plt (c : backend_call) : M Axes unit := fun a => (a ++ [c], Ok tt).

(** The value returned by a method with two return types. *)
Inductive box_result : Type :=
| BoxElement (e : OpticalElement.t)
| BoxCorners (corners_rot : list (R * R)).

(** ** OpticalTable *)

Module OpticalTable.

Record t : Type := mk {
  ax : Axes;
  aspect_ratio : R
}.

(** [OpticalTable.__init__], run on the pyplot state; [self.ax = plt.gca()]
    is the axis the calls above were logged on. *)
Definition __init__ (length width size_factor : R) (edgecolour : string)
           (grid_spacing : R) (gridcolour : string)
           (show_edge show_grid show_labels : bool) : M Axes t :=
  let edge_kw := mk_kw edgecolour None None None (Some show_edge) in
  let grid_kw := mk_kw gridcolour None (Some 0.5) None None in
  plt (Figure (Tools.mm_to_inch (length * size_factor),
               Tools.mm_to_inch (width * size_factor))) ;;
  plt (Plot [- length / 2; length / 2] [width / 2; width / 2] edge_kw) ;;
  plt (Plot [- length / 2; length / 2] [- width / 2; - width / 2] edge_kw) ;;
  plt (Plot [length / 2; length / 2] [- width / 2; width / 2] edge_kw) ;;
  plt (Plot [- length / 2; - length / 2] [- width / 2; width / 2] edge_kw) ;;
  plt AxisOff ;;
  (if show_grid then
     N_lines_x <- lift (truediv length grid_spacing) ;;
     (if is_integer N_lines_x then ret tt else raise AssertionError) ;;
     N_lines_y <- lift (truediv width grid_spacing) ;;
     (if is_integer N_lines_y then ret tt else raise AssertionError) ;;
     let x_lines := map (fun n => (- length / 2) + (INR n * grid_spacing))
                        (range (py_int (N_lines_x + 1))) in
     let y_lines := map (fun n => (- width / 2) + (INR n * grid_spacing))
                        (range (py_int (N_lines_y + 1))) in
     for_ x_lines (fun line =>
       plt (Plot [line; line] [- width / 2; width / 2] grid_kw)) ;;
     for_ y_lines (fun line =>
       plt (Plot [- length / 2; length / 2] [line; line] grid_kw)) ;;
     (if show_labels then
        for_ x_lines (fun line =>
          plt (Text line ((- width / 2) - 1) (StrOfFloat line) None None)) ;;
        for_ y_lines (fun line =>
          plt (Text ((- length / 2) - 1) line (StrOfFloat line) None None))
      else ret tt)
   else ret tt) ;;
  aspect_ratio <- lift (truediv length width) ;;
  fun gca => (gca, Ok (mk gca aspect_ratio)).

(** [OpticalTable(length, width, ...)]: [plt.figure] opens a new, empty
    figure, so [__init__] runs on an empty log. *)
Definition create (length width size_factor : R) (edgecolour : string)
           (grid_spacing : R) (gridcolour : string)
           (show_edge show_grid show_labels : bool) : result t :=
  snd (__init__ length width size_factor edgecolour grid_spacing gridcolour
                show_edge show_grid show_labels []).

(** *** Methods: state transformers over [self] *)

(** [self.ax.<call>]: the call is appended to the axis of the table. *)
Definition ax_call (c : backend_call) : M t unit :=
  fun self => (mk (ax self ++ [c]) (aspect_ratio self), Ok tt).

(** [self.aspect_ratio] *)
Definition self_aspect_ratio : M t R :=
  fun self => (self, Ok (aspect_ratio self)).

(** [c[i]] on the value [angled_line] returned: [None] is not
    subscriptable. *)
Definition coords (c : option (R * R * R * R)) : result (R * R * R * R) :=
  match c with
  | Some v => Ok v
  | None => Raise TypeError
  end.

Definition angled_line (x y size angle : R) (colour : string)
           (show get_coords : bool) : M t (option (R * R * R * R)) :=
  ar <- self_aspect_ratio ;;
  let dX := (size / 2) * Tools.cosd angle * ar in
  let dY := (size / 2) * Tools.sind angle * ar in
  (if show then ax_call (Plot [x - dX; x + dX] [y - dY; y + dY] (kw_color colour))
   else ret tt) ;;
  ret (if get_coords then Some (x - dX, x + dX, y - dY, y + dY) else None).

(** [axis] is [self.ax] at every call site, so the text goes to the axis
    of the table. *)
Definition set_label (x y size : R) (label : option string)
           (label_pos : string) (labelpad : R) (textcolour : string)
           (fontsize : R) : M t unit :=
  match label with
  | Some l =>
      p <- lift (Tools.get_label_coords label_pos x y size labelpad) ;;
      ax_call (Text (fst p) (snd p) (Str l) (Some textcolour) (Some fontsize))
  | None => ret tt
  end.

(** [set_label] again, on arguments of any Python type; matplotlib writes
    a label that is not a string through [str]. *)
Definition set_label_any (x y : R) (size label label_pos labelpad : pyval)
           (textcolour : string) (fontsize : R) : M t unit :=
  match label with
  | VNone => ret tt
  | VStr l =>
      p <- lift (Tools.get_label_coords_any label_pos x y size labelpad) ;;
      ax_call (Text (fst p) (snd p) (Str l) (Some textcolour) (Some fontsize))
  | VNum r =>
      p <- lift (Tools.get_label_coords_any label_pos x y size labelpad) ;;
      ax_call (Text (fst p) (snd p) (StrOfFloat r) (Some textcolour)
                    (Some fontsize))
  end.

Definition mirror (x y size angle : R) (colour : string)
           (label : option string) (label_pos : string) (labelpad : R)
           (textcolour : string) (fontsize : R) : M t OpticalElement.t :=
  angled_line x y size angle colour true false ;;
  set_label x y size label label_pos labelpad textcolour fontsize ;;
  lift (OpticalElement.__init__ x y "r" (Some angle) (Some "mirror"%string)).

Definition convex_lens (x y size angle : R) (colour : string) (lens_factor : R)
           (label : option string) (label_pos : string) (labelpad : R)
           (textcolour : string) (fontsize : R) : M t OpticalElement.t :=
  angled_line x y size angle colour true false ;;
  set_label x y size label label_pos labelpad textcolour fontsize ;;
  ar <- self_aspect_ratio ;;
  let size_arc := ar * size in
  h <- lift (truediv size_arc lens_factor) ;;
  ax_call (AddArc (x, y) size_arc h angle 0 180 colour) ;;
  lift (OpticalElement.__init__ x y "t" (Some angle) (Some "concave_lens"%string)).

Definition concave_mirror (x y size angle : R) (colour : string)
           (lens_factor : R)
           (label : option string) (label_pos : string) (labelpad : R)
           (textcolour : string) (fontsize : R) : M t OpticalElement.t :=
  ar <- self_aspect_ratio ;;
  let size_width := size * ar in
  let size_height := size_width * lens_factor in
  let offset_x := 0 in
  let offset_y := size_height * 0.5 in
  let edge_point_offset := (offset_x, offset_y) in
  let edge_point_rot := Tools.rotate_point edge_point_offset angle (0, 0) in
  ax_call (AddArc (x - fst edge_point_rot, y - snd edge_point_rot)
                  size_width size_height angle 0 180 colour) ;;
  set_label x y size label label_pos labelpad textcolour fontparams_fontsize ;;
  lift (OpticalElement.__init__ x y "r" (Some angle) (Some "concave_mirror"%string)).

Definition concave_lens (x y size angle : R) (colour : string)
           (offset_factor lens_factor : R)
           (label : option string) (label_pos : string) (labelpad : R)
           (textcolour : string) (fontsize : R) : M t OpticalElement.t :=
  ar <- self_aspect_ratio ;;
  let offset_x := offset_factor * ar * Tools.sind angle in
  let offset_y := offset_factor * ar * Tools.cosd angle in
  r1 <- angled_line (x + offset_x) (y - offset_y) size angle "k" true true ;;
  r2 <- angled_line (x - offset_x) (y + offset_y) size angle "k" false true ;;
  coords1 <- lift (coords r1) ;;
  coords2 <- lift (coords r2) ;;
  let '(c1_0, c1_1, c1_2, c1_3) := coords1 in
  let '(c2_0, c2_1, c2_2, c2_3) := coords2 in
  ax_call (Plot [c1_0; c2_0] [c1_2; c2_2] (kw_color colour)) ;;
  ax_call (Plot [c1_1; c2_1] [c1_3; c2_3] (kw_color colour)) ;;
  let size_arc := ar * size in
  h <- lift (truediv size_arc lens_factor) ;;
  ax_call (AddArc (x - offset_x, y + offset_y) size_arc h angle 180 360 colour) ;;
  set_label x y size label label_pos labelpad textcolour fontparams_fontsize ;;
  lift (OpticalElement.__init__ x y "t" (Some angle) (Some "convex_lens"%string)).

Definition transmissive_plate (x y size angle : R) (colour : string)
           (offset_factor : R) (fill : bool) (fillcolour : string)
           (label : option string) (label_pos : string) (labelpad : R)
           (textcolour : string) (fontsize : R) (zorder : Z)
  : M t OpticalElement.t :=
  ar <- self_aspect_ratio ;;
  let offset_x := offset_factor * ar * Tools.sind angle in
  let offset_y := offset_factor * ar * Tools.cosd angle in
  r1 <- angled_line (x + offset_x) (y - offset_y) size angle "k" true true ;;
  r2 <- angled_line (x - offset_x) (y + offset_y) size angle "k" true true ;;
  coords1 <- lift (coords r1) ;;
  coords2 <- lift (coords r2) ;;
  let '(c1_0, c1_1, c1_2, c1_3) := coords1 in
  let '(c2_0, c2_1, c2_2, c2_3) := coords2 in
  ax_call (Plot [c1_0; c2_0] [c1_2; c2_2]
                (mk_kw colour None None (Some zorder) None)) ;;
  ax_call (Plot [c1_1; c2_1] [c1_3; c2_3]
                (mk_kw colour None None (Some zorder) None)) ;;
  (if fill then
     let l1 := [c1_0; c1_1] in
     let l2 := [c1_2; c1_2] in
     let l3 := [c2_2; c2_2] in
     ax_call (FillBetween l1 l2 l3 fillcolour zorder)
   else ret tt) ;;
  set_label x y size label label_pos labelpad textcolour fontsize ;;
  lift (OpticalElement.__init__ x y "t" (Some angle)
          (Some "transmissive_plate"%string)).

Definition transmissive_cube (x y size angle : R) (colour : string)
           (label : option string) (label_pos : string) (labelpad : R)
           (textcolour : string) (fontsize : R) : M t OpticalElement.t :=
  transmissive_plate x y size angle colour (size * 0.5) false "k"
                     None "top" 0.25 "k" fontparams_fontsize 2 ;;
  set_label x y size label label_pos labelpad textcolour fontsize ;;
  lift (OpticalElement.__init__ x y "t" (Some angle)
          (Some "transmissive_cube"%string)).

Definition beamsplitter_cube (x y size angle : R) (direction : string)
           (colour : string)
           (label : option string) (label_pos : string) (labelpad : R)
           (textcolour : string) (fontsize : R) : M t OpticalElement.t :=
  (if negb (str_in direction ["L"; "R"]%string) then
     raise (ValueError direction_message)
   else ret tt) ;;
  transmissive_cube x y size angle colour
                    None "top" 0.25 "k" fontparams_fontsize ;;
  (if (direction =? "L")%string then
     angled_line x y (size * sqrt 2) (angle + 45) "k" true false ;; ret tt
   else ret tt) ;;
  (if (direction =? "R")%string then
     angled_line x y (size * sqrt 2) (angle - 45) "k" true false ;; ret tt
   else ret tt) ;;
  set_label x y size label label_pos labelpad textcolour fontsize ;;
  lift (OpticalElement.__init__ x y "t" (Some angle)
          (Some "beamsplitter_cube"%string)).

Definition box (x y size_x size_y angle : R) (colour linestyle : string)
           (standalone : bool)
           (label : option string) (label_pos : string) (labelpad : R)
           (textcolour : string) (fontsize : R) : M t box_result :=
  let offset_x := size_x / 2 in
  let offset_y := size_y / 2 in
  let corners := [(x - offset_x, y - offset_y); (x + offset_x, y - offset_y);
                  (x + offset_x, y + offset_y); (x - offset_x, y + offset_y)] in
  let corners_rot := map (fun corner => Tools.rotate_point corner angle (x, y))
                         corners in
  let kw := mk_kw colour (Some linestyle) None None None in
  for_ (enumerate_init corners_rot) (fun i =>
    p <- lift (getitem corners_rot i) ;;
    q <- lift (getitem corners_rot (i + 1)) ;;
    ax_call (Plot [fst p; fst q] [snd p; snd q] kw) ;;
    if (i =? 2)%nat then
      q <- lift (getitem corners_rot (i + 1)) ;;
      p <- lift (getitem corners_rot 0) ;;
      ax_call (Plot [fst q; fst p] [snd q; snd p] kw)
    else ret tt) ;;
  if standalone then
    set_label x y 0 label label_pos labelpad textcolour fontparams_fontsize ;;
    e <- lift (OpticalElement.__init__ x y "t" (Some angle)
                 (Some "generic_box"%string)) ;;
    ret (BoxElement e)
  else ret (BoxCorners corners_rot).

(** [corners[i]] on the value [box] returned: an [OpticalElement] is not
    subscriptable. *)
Definition corner (b : box_result) (i : nat) : result (R * R) :=
  match b with
  | BoxCorners c => getitem c i
  | BoxElement _ => Raise TypeError
  end.

Definition box_source (x y size_x size_y angle : R) (output_side : string)
           (colour : string)
           (label : option string) (label_pos : string) (labelpad : R)
           (textcolour : string) (fontsize : R) : M t OpticalElement.t :=
  (if negb (str_in output_side allowed_sides) then
     raise (ValueError "Invalid Output Side.")
   else ret tt) ;;
  corners <- box x y size_x size_y angle "k" "-" false
                 None "top" 0.25 "k" fontparams_fontsize ;;
  side <- (if (output_side =? "top")%string then
             a <- lift (corner corners 2) ;; b <- lift (corner corners 3) ;;
             ret (a, b)
           else if (output_side =? "bottom")%string then
             a <- lift (corner corners 0) ;; b <- lift (corner corners 1) ;;
             ret (a, b)
           else if (output_side =? "left")%string then
             a <- lift (corner corners 0) ;; b <- lift (corner corners 3) ;;
             ret (a, b)
           else if (output_side =? "right")%string then
             a <- lift (corner corners 1) ;; b <- lift (corner corners 2) ;;
             ret (a, b)
           else raise UnboundLocalError) ;;
  let output_point := Tools.get_midpoint side in
  set_label x y 0 label label_pos labelpad textcolour fontsize ;;
  lift (OpticalElement.__init__ (fst output_point) (snd output_point) "t"
          (Some angle) (Some "box_source"%string)).

(** [if label:] holds for a string that is not empty.  The call inside is
    [self.set_label(self.ax, x, y, label, label_pos, labelpad, textcolour,
    fontsize=fontsize)]: it leaves out the size, so [set_label] receives the
    label as [size], [label_pos] as [label], [labelpad] as [label_pos] and
    [textcolour] as [labelpad], and its own [textcolour] keeps the default
    ['k']. *)
Definition point_source (x y : R)
           (label : option string) (label_pos : string) (labelpad : R)
           (textcolour : string) (fontsize : R) : M t OpticalElement.t :=
  (match label with
   | Some l =>
       if (l =? "")%string then ret tt
       else set_label_any x y (VStr l) (VStr label_pos) (VNum labelpad)
                          (VStr textcolour) "k" fontsize
   | None => ret tt
   end) ;;
  lift (OpticalElement.__init__ x y "t" None (Some "point_source"%string)).

Definition beam_dump (x y size angle : R) (colour fillcolour : string)
           (label : option string) (label_pos : string) (labelpad : R)
           (textcolour : string) (fontsize : R) : M t OpticalElement.t :=
  transmissive_plate x y size angle colour 0.05 true fillcolour
                     None "top" 0.25 "k" fontparams_fontsize 10 ;;
  set_label x y size label label_pos labelpad textcolour fontsize ;;
  lift (OpticalElement.__init__ x y "t" None (Some "beam_dump"%string)).

Definition generic_circle (x y size : R) (colour : string) (fill : bool)
           (fillcolour : string)
           (label : option string) (label_pos : string) (labelpad : R)
           (textcolour : string) (fontsize : R) : M t OpticalElement.t :=
  let circle := AddCircle (x, y) size colour fill fillcolour in
  set_label x y size label label_pos labelpad textcolour fontsize ;;
  ax_call circle ;;
  lift (OpticalElement.__init__ x y "t" None (Some "generic_circle"%string)).

End OpticalTable.

(** ** LaserBeam *)

Module LaserBeam.

Record t : Type := mk {
  colour : string;
  width : R;
  style : string;
  divergent : bool;
  div_angle : option R
}.

Definition __init__ (colour : string) (width : R) (style : string)
           (divergent : bool) (divergence_angle : option R) : t :=
  mk colour width style divergent divergence_angle.

(** The two objects [draw] is handed by reference: the table and the list
    of optics. *)
Record args : Type := mk_args {
  table : OpticalTable.t;
  optics : list OpticalElement.t
}.

(** [table.ax.plot(...)] *)
Definition table_ax_plot (xs ys : list R) (kw : plot_kw) : M args unit :=
  fun a =>
    (mk_args (OpticalTable.mk (OpticalTable.ax (table a) ++ [Plot xs ys kw])
                              (OpticalTable.aspect_ratio (table a)))
             (optics a),
     Ok tt).

(** [optics[i]] *)
Definition optics_getitem (i : nat) : M args OpticalElement.t :=
  fun a => (a, getitem (optics a) i).

(** [enumerate(optics[0:-1])], indices only. *)
Definition optics_enumerate_init : M args (list nat) :=
  fun a => (a, Ok (enumerate_init (optics a))).

(** The keywords [draw] hands to [plot]. *)
Definition beam_kw (self : t) : plot_kw :=
  mk_kw (colour self) (Some (style self)) (Some (width self)) None None.

(** The body of the loop of [draw]. *)
Definition draw_body (self : t) (i : nat) : M args unit :=
  o1 <- optics_getitem i ;;
  o2 <- optics_getitem (i + 1) ;;
  o3 <- optics_getitem i ;;
  o4 <- optics_getitem (i + 1) ;;
  table_ax_plot [OpticalElement.x o1; OpticalElement.x o2]
                [OpticalElement.y o3; OpticalElement.y o4]
                (beam_kw self).

Definition draw (self : t) : M args unit :=
  if divergent self then ret tt
  else
    idx <- optics_enumerate_init ;;
    for_ idx (draw_body self).

End LaserBeam.

(** * Vocabulary of the properties *)

(** The segment a beam draws between the anchors of two handles. *)
Definition segment (self : LaserBeam.t)
           (ab : OpticalElement.t * OpticalElement.t) : backend_call :=
  Plot [OpticalElement.x (fst ab); OpticalElement.x (snd ab)]
       [OpticalElement.y (fst ab); OpticalElement.y (snd ab)]
       (LaserBeam.beam_kw self).

(** Element [i] of a list paired with element [i+1]. *)
Definition consecutive {A : Type} (l : list A) : list (A * A) :=
  combine l (tl l).

(** A call that draws one straight line between two points. *)
Definition is_segment (c : backend_call) : Prop :=
  match c with
  | Plot [_; _] [_; _] _ => True
  | _ => False
  end.

(** A straight line drawn from the first point of [pq] to the second. *)
Definition edge (kw : plot_kw) (pq : (R * R) * (R * R)) : backend_call :=
  Plot [fst (fst pq); fst (snd pq)] [snd (fst pq); snd (snd pq)] kw.

(** The horizontal segment of signed length [len] centred at [(x, y)],
    rotated by [angle] degrees anticlockwise about [(x, y)]. *)
Definition rotated_segment (x y len angle : R) : (R * R) * (R * R) :=
  (Tools.rotate_point (x - len / 2, y) angle (x, y),
   Tools.rotate_point (x + len / 2, y) angle (x, y)).

(** Euclidean distance between the two end points. *)
Definition dist (pq : (R * R) * (R * R)) : R :=
  sqrt ((fst (snd pq) - fst (fst pq))² + (snd (snd pq) - snd (fst pq))²).

(** The corners of the box of size [size_x] by [size_y] centred at [(x, y)]
    and rotated by [angle] about its centre. *)
Definition bottom_left (x y size_x size_y angle : R) : R * R :=
  Tools.rotate_point (x - size_x / 2, y - size_y / 2) angle (x, y).
Definition bottom_right (x y size_x size_y angle : R) : R * R :=
  Tools.rotate_point (x + size_x / 2, y - size_y / 2) angle (x, y).
Definition top_right (x y size_x size_y angle : R) : R * R :=
  Tools.rotate_point (x + size_x / 2, y + size_y / 2) angle (x, y).
Definition top_left (x y size_x size_y angle : R) : R * R :=
  Tools.rotate_point (x - size_x / 2, y + size_y / 2) angle (x, y).

(** The four edges of that box, anticlockwise from the bottom edge. *)
Definition box_outline (kw : plot_kw) (x y size_x size_y angle : R)
  : list backend_call :=
  [edge kw (bottom_left x y size_x size_y angle,
            bottom_right x y size_x size_y angle);
   edge kw (bottom_right x y size_x size_y angle,
            top_right x y size_x size_y angle);
   edge kw (top_right x y size_x size_y angle,
            top_left x y size_x size_y angle);
   edge kw (top_left x y size_x size_y angle,
            bottom_left x y size_x size_y angle)].

(** The label positions [get_label_coords] accepts. *)
Definition label_sides : list string :=
  ["top"; "bottom"; "left"; "right"; "centre"]%string.

(** Every value a computation can return satisfies [P]. *)
Definition returns {S A : Type} (m : M S A) (P : A -> Prop) : Prop :=
  forall s s' a, m s = (s', Ok a) -> P a.

(** [mirror(x, y, size, angle)] draws exactly one line, the segment of
    length [len] centred at [(x, y)] and rotated by [angle], and returns the
    handle with anchor [(x, y)], orientation [angle] and reflective mode. *)
Definition mirror_draws_segment (len : R) (self : OpticalTable.t)
           (x y size angle : R) : Prop :=
  forall (colour lp : string) (pad : R) (tc : string) (fs : R),
    OpticalTable.mirror x y size angle colour None lp pad tc fs self
    = (OpticalTable.mk
         (OpticalTable.ax self
          ++ [edge (kw_color colour) (rotated_segment x y len angle)])
         (OpticalTable.aspect_ratio self),
       Ok (OpticalElement.mk x y "r" (Some angle))).


(** The calls [OpticalTable.__init__] makes before the grid: the figure, the
    four edges of the table and [plt.axis('off')]. *)
Definition table_frame (length width size_factor : R) (edgecolour : string)
           (show_edge : bool) : Axes :=
  let edge_kw := mk_kw edgecolour None None None (Some show_edge) in
  [Figure (Tools.mm_to_inch (length * size_factor),
           Tools.mm_to_inch (width * size_factor));
   Plot [- length / 2; length / 2] [width / 2; width / 2] edge_kw;
   Plot [- length / 2; length / 2] [- width / 2; - width / 2] edge_kw;
   Plot [length / 2; length / 2] [- width / 2; width / 2] edge_kw;
   Plot [- length / 2; - length / 2] [- width / 2; width / 2] edge_kw;
   AxisOff].

(** The calls [OpticalTable.__init__] makes for a grid with vertical lines
    at [x_lines] and horizontal lines at [y_lines]: the lines, then their
    coordinate labels if asked for. *)
Definition grid_calls (length width : R) (gridcolour : string)
           (x_lines y_lines : list R) (show_labels : bool) : Axes :=
  let grid_kw := mk_kw gridcolour None (Some 0.5) None None in
  map (fun line => Plot [line; line] [- width / 2; width / 2] grid_kw) x_lines
  ++ map (fun line => Plot [- length / 2; length / 2] [line; line] grid_kw) y_lines
  ++ (if show_labels then
        map (fun line => Text line ((- width / 2) - 1) (StrOfFloat line) None None)
            x_lines
        ++ map (fun line => Text ((- length / 2) - 1) line (StrOfFloat line)
                                 None None)
               y_lines
      else []).

(** The grid coordinates [__init__] computes along a side of length [side]. *)
Definition grid_coordinates (side grid_spacing : R) : list R :=
  map (fun n => (- side / 2) + (INR n * grid_spacing))
      (range (py_int (side / grid_spacing + 1))).

(** The table [s'] is the table [s] with calls appended to its axis. *)
Definition extends (s s' : OpticalTable.t) : Prop :=
  OpticalTable.aspect_ratio s' = OpticalTable.aspect_ratio s
  /\ exists rest, OpticalTable.ax s' = OpticalTable.ax s ++ rest.

(** A method that, however it ends, has only appended calls to the axis. *)
Definition appends_only {A : Type} (m : M OpticalTable.t A) : Prop :=
  forall s, extends s (fst (m s)).

(** The anchor of a handle. *)
Definition anchor (h : OpticalElement.t) : R * R :=
  (OpticalElement.x h, OpticalElement.y h).


(** * Properties *)

Import OpticalTable.

(** ** The beam router *)

Lemma getitem_app_here {A : Type} (pre rest : list A) (a : A) :
  getitem (pre ++ a :: rest) (List.length pre) = Ok a.
Proof.
  unfold getitem. rewrite nth_error_app2 by lia.
  rewrite Nat.sub_diag. reflexivity.
Qed.

Lemma getitem_app_next {A : Type} (pre rest : list A) (a b : A) :
  getitem (pre ++ a :: b :: rest) (List.length pre + 1) = Ok b.
Proof.
  unfold getitem. rewrite nth_error_app2 by lia.
  replace (List.length pre + 1 - List.length pre)%nat with 1%nat by lia.
  reflexivity.
Qed.

Section Router.

Variable self : LaserBeam.t.

(** The loop, started at index [length pre] on the list [pre ++ rest]. *)
Lemma draw_loop (rest pre : list OpticalElement.t) (cv : Axes) (ar : R) :
  for_ (seq (List.length pre) (List.length (removelast rest)))
       (LaserBeam.draw_body self)
       (LaserBeam.mk_args (OpticalTable.mk cv ar) (pre ++ rest))
  = (LaserBeam.mk_args
       (OpticalTable.mk (cv ++ map (segment self) (consecutive rest)) ar)
       (pre ++ rest),
     Ok tt).
Proof.
  revert pre cv. induction rest as [|a rest IH]; intros pre cv.
  - cbn. rewrite !app_nil_r. reflexivity.
  - destruct rest as [|b rest].
    + cbn. rewrite !app_nil_r. reflexivity.
    + change (removelast (a :: b :: rest)) with (a :: removelast (b :: rest)).
      cbn [List.length seq for_].
      unfold bind at 1. unfold LaserBeam.draw_body at 1.
      unfold bind, LaserBeam.optics_getitem, LaserBeam.table_ax_plot.
      cbn [LaserBeam.optics LaserBeam.table OpticalTable.ax
           OpticalTable.aspect_ratio].
      rewrite getitem_app_here, getitem_app_next.
      specialize (IH (pre ++ [a]) (cv ++ [segment self (a, b)])).
      rewrite length_app in IH. cbn [List.length] in IH.
      replace (List.length pre + 1)%nat with (S (List.length pre)) in IH by lia.
      rewrite <- app_assoc in IH. cbn [app] in IH.
      unfold bind in IH.
      change (Plot [OpticalElement.x a; OpticalElement.x b]
                   [OpticalElement.y a; OpticalElement.y b]
                   (LaserBeam.beam_kw self))
        with (segment self (a, b)).
      rewrite IH. rewrite <- app_assoc. reflexivity.
Qed.

Lemma draw_not_divergent (a : LaserBeam.args) :
  LaserBeam.divergent self = false ->
  LaserBeam.draw self a
  = (LaserBeam.mk_args
       (OpticalTable.mk
          (ax (LaserBeam.table a)
           ++ map (segment self) (consecutive (LaserBeam.optics a)))
          (aspect_ratio (LaserBeam.table a)))
       (LaserBeam.optics a),
     Ok tt).
Proof.
  intros Hd. unfold LaserBeam.draw. rewrite Hd.
  unfold bind at 1. unfold LaserBeam.optics_enumerate_init, enumerate_init.
  destruct a as [[cv ar] os].
  cbn [LaserBeam.optics LaserBeam.table ax aspect_ratio].
  exact (draw_loop os [] cv ar).
Qed.

Lemma draw_divergent (a : LaserBeam.args) :
  LaserBeam.divergent self = true -> LaserBeam.draw self a = (a, Ok tt).
Proof. intros Hd. unfold LaserBeam.draw. rewrite Hd. reflexivity. Qed.

End Router.

Lemma length_consecutive {A : Type} (l : list A) :
  List.length (consecutive l) = (List.length l - 1)%nat.
Proof.
  unfold consecutive. rewrite length_combine.
  destruct l; cbn [tl List.length]; lia.
Qed.

Lemma nth_error_consecutive {A : Type} (l : list A) (i : nat) (a b : A) :
  nth_error l i = Some a -> nth_error l (S i) = Some b ->
  nth_error (consecutive l) i = Some (a, b).
Proof.
  unfold consecutive. revert i.
  induction l as [|h l IH]; intros i Ha Hb.
  - destruct i; discriminate.
  - destruct i as [|i].
    + cbn in Ha, Hb. destruct l as [|h' l]; [discriminate|].
      cbn in *. congruence.
    + cbn [nth_error] in Ha, Hb. destruct l as [|h' l].
      * destruct i; discriminate.
      * cbn [tl combine nth_error]. apply IH; assumption.
Qed.

(** ** Geometry *)

Lemma half_decimal : 0.5 = 1 / 2.
Proof. lra. Qed.

Ltac list_R_eq :=
  repeat match goal with
         | |- _ :: _ = _ :: _ => apply (f_equal2 (@cons R)); [field |]
         end;
  try reflexivity.

Lemma dist_rotated_segment (x y len angle : R) :
  dist (rotated_segment x y len angle) = Rabs len.
Proof.
  unfold dist, rotated_segment, Tools.rotate_point. cbn [fst snd].
  set (c := cos _). set (s := sin _).
  assert (H : c² + s² = 1).
  { unfold c, s. rewrite Rplus_comm. apply sin2_cos2. }
  replace (_ + _) with (len² * (c² + s²)) by (unfold Rsqr; field).
  rewrite H, Rmult_1_r. apply sqrt_Rsqr_abs.
Qed.

Lemma midpoint_rotated_segment (x y len angle : R) :
  Tools.get_midpoint (rotated_segment x y len angle) = (x, y).
Proof.
  unfold Tools.get_midpoint, rotated_segment, Tools.rotate_point. cbn [fst snd].
  rewrite half_decimal. f_equal; field.
Qed.

Lemma plot_rotated_segment (x y size ar angle : R) (kw : plot_kw) :
  Plot [x - size / 2 * Tools.cosd angle * ar; x + size / 2 * Tools.cosd angle * ar]
       [y - size / 2 * Tools.sind angle * ar; y + size / 2 * Tools.sind angle * ar]
       kw
  = edge kw (rotated_segment x y (size * ar) angle).
Proof.
  unfold edge, rotated_segment, Tools.rotate_point, Tools.cosd, Tools.sind.
  cbn [fst snd].
  apply (f_equal3 Plot); [list_R_eq | list_R_eq | reflexivity].
Qed.

Lemma edge_inj (kw : plot_kw) (pq pq' : (R * R) * (R * R)) :
  edge kw pq = edge kw pq' -> pq = pq'.
Proof.
  destruct pq as [[a b] [c d]], pq' as [[a' b'] [c' d']].
  unfold edge. cbn [fst snd]. intros H. injection H as -> -> -> ->. reflexivity.
Qed.

Lemma cosd_0 : Tools.cosd 0 = 1.
Proof. unfold Tools.cosd, Tools.deg_to_rad. rewrite Rmult_0_l. apply cos_0. Qed.

Lemma sind_0 : Tools.sind 0 = 0.
Proof. unfold Tools.sind, Tools.deg_to_rad. rewrite Rmult_0_l. apply sin_0. Qed.

Lemma rotate_point_0 (p o : R * R) : Tools.rotate_point p 0 o = p.
Proof.
  destruct p as [px py], o as [ox oy]. unfold Tools.rotate_point.
  fold (Tools.cosd 0) (Tools.sind 0). rewrite cosd_0, sind_0. cbn [fst snd].
  f_equal; ring.
Qed.

(** ** The methods of the table, step by step *)

Lemma angled_line_run (x y size angle : R) (colour : string) (gc : bool)
      (self : OpticalTable.t) :
  angled_line x y size angle colour true gc self
  = (OpticalTable.mk
       (ax self ++ [edge (kw_color colour)
                         (rotated_segment x y (size * aspect_ratio self) angle)])
       (aspect_ratio self),
     Ok (if gc
         then Some (x - size / 2 * Tools.cosd angle * aspect_ratio self,
                    x + size / 2 * Tools.cosd angle * aspect_ratio self,
                    y - size / 2 * Tools.sind angle * aspect_ratio self,
                    y + size / 2 * Tools.sind angle * aspect_ratio self)
         else None)).
Proof.
  unfold angled_line, self_aspect_ratio, ax_call, bind, ret.
  cbn [ax aspect_ratio].
  rewrite plot_rotated_segment. reflexivity.
Qed.

Lemma str_in_cases (s : string) (l : list string) :
  str_in s l = true <-> In s l.
Proof.
  unfold str_in. rewrite existsb_exists. split.
  - intros (t & Hin & Heq). apply String.eqb_eq in Heq. subst. exact Hin.
  - intros Hin. exists s. split; [exact Hin | apply String.eqb_refl].
Qed.

Lemma get_label_coords_invalid (lp : string) (x y size pad : R) :
  str_in lp label_sides = false ->
  Tools.get_label_coords lp x y size pad
  = Raise (ValueError label_pos_message).
Proof.
  unfold str_in, label_sides, Tools.get_label_coords. cbn [existsb].
  intros H. repeat (apply orb_false_elim in H; destruct H as [-> H]). reflexivity.
Qed.

Lemma truediv_nonzero (a b : R) : b <> 0 -> truediv a b = Ok (a / b).
Proof. intros H. unfold truediv. destruct (Req_dec_T b 0); [contradiction | reflexivity]. Qed.

Lemma create_no_grid (length width sf : R) (ec : string) (gs : R) (gc : string)
      (se sl : bool) :
  width <> 0 ->
  create length width sf ec gs gc se false sl
  = Ok (OpticalTable.mk (table_frame length width sf ec se) (length / width)).
Proof.
  intros Hw. unfold create, __init__, bind, plt, ret, lift.
  cbn [app]. rewrite (truediv_nonzero _ _ Hw). reflexivity.
Qed.

Lemma mirror_run (x y size angle : R) (colour : string) (label : option string)
      (lp : string) (pad : R) (tc : string) (fs : R) (self : OpticalTable.t) :
  mirror x y size angle colour label lp pad tc fs self
  = (set_label x y size label lp pad tc fs ;;
     lift (OpticalElement.__init__ x y "r" (Some angle) (Some "mirror"%string)))
      (OpticalTable.mk
         (ax self ++ [edge (kw_color colour)
                           (rotated_segment x y (size * aspect_ratio self) angle)])
         (aspect_ratio self)).
Proof.
  unfold mirror. unfold bind at 1. rewrite angled_line_run. reflexivity.
Qed.

Lemma mirror_unlabelled (x y size angle : R) (colour lp : string) (pad : R)
      (tc : string) (fs : R) (self : OpticalTable.t) :
  mirror x y size angle colour None lp pad tc fs self
  = (OpticalTable.mk
       (ax self ++ [edge (kw_color colour)
                         (rotated_segment x y (size * aspect_ratio self) angle)])
       (aspect_ratio self),
     Ok (OpticalElement.mk x y "r" (Some angle))).
Proof. rewrite mirror_run. reflexivity. Qed.


Lemma last_call_inj {A : Type} (l : Axes) (c c' : backend_call) (ar ar' : R)
      (r r' : result A) :
  (OpticalTable.mk (l ++ [c]) ar, r) = (OpticalTable.mk (l ++ [c']) ar', r') ->
  c = c'.
Proof.
  intros H. injection H as H _ _. apply app_inv_head in H.
  injection H as H. exact H.
Qed.

(** ** mirror *)

(** C4, as the code has it.  [mirror(x, y, size, angle)] with no label draws
    exactly one line: the segment centred at [(x, y)], rotated by [angle]
    anticlockwise about [(x, y)], whose length is [|size * aspect_ratio|] and
    not [size]; the handle has anchor [(x, y)], orientation [angle] and mode
    ['r']. *)
Theorem mirror_segment_scaled_by_aspect_ratio
        (self : OpticalTable.t) (x y size angle : R) :
  mirror_draws_segment (size * aspect_ratio self) self x y size angle
  /\ dist (rotated_segment x y (size * aspect_ratio self) angle)
     = Rabs (size * aspect_ratio self)
  /\ Tools.get_midpoint (rotated_segment x y (size * aspect_ratio self) angle)
     = (x, y).
Proof.
  split; [|split].
  - intros colour lp pad tc fs. apply mirror_unlabelled.
  - apply dist_rotated_segment.
  - apply midpoint_rotated_segment.
Qed.

(** C4 fails as stated: on the table [OpticalTable(20, 10)], whose aspect
    ratio is 2, [mirror(0, 0, 2, 0)] does not draw the segment of length 2;
    it draws the one of length 4. *)
Lemma mirror_length_is_not_size :
  exists tbl,
    create 20 10 10 "k" 1 "gray" true false false = Ok tbl
    /\ aspect_ratio tbl = 2
    /\ ~ mirror_draws_segment 2 tbl 0 0 2 0
    /\ mirror_draws_segment 4 tbl 0 0 2 0.
Proof.
  eexists. split; [apply create_no_grid; lra|].
  cbn [aspect_ratio]. split; [lra|]. split.
  - intros H. specialize (H "k"%string "bottom"%string 0.25 "k"%string 8).
    rewrite mirror_unlabelled in H. cbn [aspect_ratio ax] in H.
    apply last_call_inj, edge_inj in H. unfold rotated_segment in H.
    rewrite !rotate_point_0 in H. injection H as H1 H2. lra.
  - intros colour lp pad tc fs. rewrite mirror_unlabelled.
    cbn [aspect_ratio ax]. repeat f_equal. lra.
Qed.

(** ** LaserBeam.draw *)

(** C5.  With [divergent] off, [draw] on [n] handles appends [n - 1] line
    segments to the axis of the table, the [i]-th one from the anchor of
    handle [i] to the anchor of handle [i + 1], in list order, and returns;
    on 0 or 1 handles it appends nothing. *)
Theorem draw_connects_consecutive_anchors
        (colour : string) (width : R) (style : string) (div_angle : option R)
        (tbl : OpticalTable.t) (optics : list OpticalElement.t) :
  let self := LaserBeam.__init__ colour width style false div_angle in
  let segs := map (segment self) (consecutive optics) in
  LaserBeam.draw self (LaserBeam.mk_args tbl optics)
  = (LaserBeam.mk_args (OpticalTable.mk (ax tbl ++ segs) (aspect_ratio tbl))
                       optics,
     Ok tt)
  /\ List.length segs = (List.length optics - 1)%nat
  /\ (forall i a b,
         nth_error optics i = Some a -> nth_error optics (S i) = Some b ->
         nth_error segs i
         = Some (Plot [OpticalElement.x a; OpticalElement.x b]
                      [OpticalElement.y a; OpticalElement.y b]
                      (LaserBeam.beam_kw self)))
  /\ ((List.length optics <= 1)%nat -> segs = []).
Proof.
  intros self segs. repeat split.
  - apply (draw_not_divergent self (LaserBeam.mk_args tbl optics)). reflexivity.
  - unfold segs. rewrite length_map. apply length_consecutive.
  - intros i a b Ha Hb. unfold segs.
    rewrite nth_error_map, (nth_error_consecutive _ _ _ _ Ha Hb). reflexivity.
  - intros Hn. unfold segs. destruct optics as [|a [|b l]]; cbn in *;
      [reflexivity | reflexivity | lia].
Qed.

(** The beam of the specification's example: handles at (0,0), (5,0) and
    (5,5) give the two segments (0,0)-(5,0) and (5,0)-(5,5). *)
Lemma draw_connects_consecutive_anchors_witness :
  let h0 := OpticalElement.mk 0 0 "t" None in
  let h1 := OpticalElement.mk 5 0 "r" (Some 45) in
  let h2 := OpticalElement.mk 5 5 "t" None in
  let self := LaserBeam.__init__ "r" 1 "-" false None in
  let tbl := OpticalTable.mk [] 1 in
  LaserBeam.draw self (LaserBeam.mk_args tbl [h0; h1; h2])
  = (LaserBeam.mk_args
       (OpticalTable.mk [Plot [0; 5] [0; 0] (LaserBeam.beam_kw self);
                         Plot [5; 5] [0; 5] (LaserBeam.beam_kw self)] 1)
       [h0; h1; h2],
     Ok tt)
  /\ nth_error (map (segment self) (consecutive [h0; h1; h2])) 1
     = Some (Plot [5; 5] [0; 5] (LaserBeam.beam_kw self))
  /\ map (segment self) (consecutive [h0]) = [].
Proof.
  intros h0 h1 h2 self tbl.
  split; [|split].
  - exact (proj1 (draw_connects_consecutive_anchors
                    "r" 1 "-" None tbl [h0; h1; h2])).
  - apply (proj1 (proj2 (proj2 (draw_connects_consecutive_anchors
                                  "r" 1 "-" None tbl [h0; h1; h2]))) 1%nat h1 h2);
      reflexivity.
  - apply (proj2 (proj2 (proj2 (draw_connects_consecutive_anchors
                                  "r" 1 "-" None tbl [h0])))).
    cbn. lia.
Defined.

(** C6.  With [divergent] on, [draw] is a no-op: it returns and leaves the
    table, its axis included, and the handles as they were, whatever the
    handles are. *)
Theorem draw_divergent_is_noop
        (colour : string) (width : R) (style : string) (div_angle : option R)
        (a : LaserBeam.args) :
  LaserBeam.draw (LaserBeam.__init__ colour width style true div_angle) a
  = (a, Ok tt).
Proof. apply draw_divergent. reflexivity. Qed.

(** C9.  [draw] returns, leaves the list of handles (hence every [x], [y],
    [mode] and [angle]) and the aspect ratio of the table unchanged, and only
    appends line segments to the axis. *)
Theorem draw_frame (self : LaserBeam.t) (a : LaserBeam.args) :
  let a' := fst (LaserBeam.draw self a) in
  snd (LaserBeam.draw self a) = Ok tt
  /\ LaserBeam.optics a' = LaserBeam.optics a
  /\ aspect_ratio (LaserBeam.table a') = aspect_ratio (LaserBeam.table a)
  /\ exists segs,
       ax (LaserBeam.table a') = ax (LaserBeam.table a) ++ segs
       /\ Forall is_segment segs.
Proof.
  destruct (LaserBeam.divergent self) eqn:Hd.
  - rewrite (draw_divergent self a Hd). cbn [fst snd].
    repeat split. exists []. rewrite app_nil_r. split; [reflexivity | constructor].
  - rewrite (draw_not_divergent self a Hd). cbn [fst snd LaserBeam.optics
      LaserBeam.table ax aspect_ratio].
    repeat split. eexists. split; [reflexivity|].
    apply Forall_map. apply Forall_forall. intros ab _. exact I.
Qed.

(** ** box and box_source *)

Lemma box_run (x y size_x size_y angle : R) (colour linestyle : string)
      (standalone : bool) (label : option string) (lp : string) (pad : R)
      (tc : string) (fs : R) (self : OpticalTable.t) :
  box x y size_x size_y angle colour linestyle standalone label lp pad tc fs self
  = (if standalone then
       set_label x y 0 label lp pad tc fontparams_fontsize ;;
       e <- lift (OpticalElement.__init__ x y "t" (Some angle)
                    (Some "generic_box"%string)) ;;
       ret (BoxElement e)
     else
       ret (BoxCorners [bottom_left x y size_x size_y angle;
                        bottom_right x y size_x size_y angle;
                        top_right x y size_x size_y angle;
                        top_left x y size_x size_y angle]))
      (OpticalTable.mk
         (ax self
          ++ box_outline (mk_kw colour (Some linestyle) None None None)
                         x y size_x size_y angle)
         (aspect_ratio self)).
Proof.
  unfold box. cbn [map enumerate_init removelast List.length seq for_].
  unfold bind at 1. unfold bind, ret, lift, ax_call.
  cbn [getitem nth_error Nat.add Nat.eqb ax aspect_ratio].
  rewrite <- !app_assoc. reflexivity.
Qed.

Lemma box_source_run (x y size_x size_y angle : R) (output_side colour : string)
      (label : option string) (lp : string) (pad : R) (tc : string) (fs : R)
      (self : OpticalTable.t) (side : (R * R) * (R * R)) :
  In (output_side, side)
     [("top"%string, (top_right x y size_x size_y angle,
                      top_left x y size_x size_y angle));
      ("bottom"%string, (bottom_left x y size_x size_y angle,
                         bottom_right x y size_x size_y angle));
      ("left"%string, (bottom_left x y size_x size_y angle,
                       top_left x y size_x size_y angle));
      ("right"%string, (bottom_right x y size_x size_y angle,
                        top_right x y size_x size_y angle))] ->
  box_source x y size_x size_y angle output_side colour label lp pad tc fs self
  = (set_label x y 0 label lp pad tc fs ;;
     lift (OpticalElement.__init__ (fst (Tools.get_midpoint side))
                                   (snd (Tools.get_midpoint side)) "t"
                                   (Some angle) (Some "box_source"%string)))
      (OpticalTable.mk
         (ax self ++ box_outline (mk_kw "k" (Some "-"%string) None None None)
                                 x y size_x size_y angle)
         (aspect_ratio self)).
Proof.
  intros Hin. cbn [In] in Hin.
  destruct Hin as [E|[E|[E|[E|[]]]]]; injection E as <- <-;
    unfold box_source; unfold bind at 1; cbn [str_in allowed_sides existsb
      String.eqb Ascii.eqb Bool.eqb orb negb andb];
    unfold raise, ret at 1; cbv iota; unfold bind at 1; rewrite box_run;
    reflexivity.
Qed.


Lemma fst_bind_lift {S A B : Type} (m : M S A) (r : result B) (s : S) :
  fst ((m ;; lift r) s) = fst (m s).
Proof. unfold bind, lift. destruct (m s) as [s' [a|e]]; reflexivity. Qed.

Lemma set_label_extends (x y size : R) (label : option string) (lp : string)
      (pad : R) (tc : string) (fs : R) (s : OpticalTable.t) :
  exists rest, ax (fst (set_label x y size label lp pad tc fs s)) = ax s ++ rest.
Proof.
  unfold set_label. destruct label as [l|].
  - unfold bind, lift, ax_call.
    destruct (Tools.get_label_coords lp x y size pad) as [p|e]; cbn [fst ax].
    + eexists. reflexivity.
    + exists []. symmetry. apply app_nil_r.
  - exists []. symmetry. apply app_nil_r.
Qed.

(** C10.  [box] draws the four edges of the rotated rectangle whatever
    [standalone] is: with [standalone=False] it draws them and returns the
    four rotated corners, and [box_source], which calls it that way, has the
    outline on the axis as well. *)
Theorem box_draws_outline_regardless_of_standalone
        (x y size_x size_y angle : R) (colour linestyle : string)
        (standalone : bool) (label : option string) (lp : string) (pad : R)
        (tc : string) (fs : R) (self : OpticalTable.t) :
  (exists rest,
      ax (fst (box x y size_x size_y angle colour linestyle standalone
                   label lp pad tc fs self))
      = ax self
        ++ box_outline (mk_kw colour (Some linestyle) None None None)
                       x y size_x size_y angle
        ++ rest)
  /\ box x y size_x size_y angle colour linestyle false label lp pad tc fs self
     = (OpticalTable.mk
          (ax self ++ box_outline (mk_kw colour (Some linestyle) None None None)
                                  x y size_x size_y angle)
          (aspect_ratio self),
        Ok (BoxCorners [bottom_left x y size_x size_y angle;
                        bottom_right x y size_x size_y angle;
                        top_right x y size_x size_y angle;
                        top_left x y size_x size_y angle]))
  /\ Forall (fun output_side =>
       exists rest,
         ax (fst (box_source x y size_x size_y angle output_side colour
                             label lp pad tc fs self))
         = ax self
           ++ box_outline (mk_kw "k" (Some "-"%string) None None None)
                          x y size_x size_y angle
           ++ rest)
       allowed_sides.
Proof.
  split; [|split].
  - rewrite box_run. destruct standalone.
    + match goal with
      | |- context [bind ?m ?k ?s] =>
          assert (H : fst (bind m k s) = fst (m s))
      end.
      { unfold bind, lift, ret.
        destruct (set_label x y 0 label lp pad tc fontparams_fontsize _)
          as [s' [a|e]]; reflexivity. }
      rewrite H.
      destruct (set_label_extends x y 0 label lp pad tc fontparams_fontsize
                  (OpticalTable.mk
                     (ax self ++ box_outline
                        (mk_kw colour (Some linestyle) None None None)
                        x y size_x size_y angle)
                     (aspect_ratio self))) as [rest Hrest].
      exists rest. rewrite Hrest. cbn [ax]. symmetry. apply app_assoc.
    + exists []. cbn [ret fst ax]. rewrite app_nil_r. reflexivity.
  - rewrite box_run. reflexivity.
  - unfold allowed_sides.
    repeat (apply Forall_cons; [|]); try apply Forall_nil.
    all: erewrite box_source_run by (cbn [In]; eauto 6);
      rewrite fst_bind_lift;
      match goal with
      | |- context [set_label ?a ?b ?c ?d ?e ?f ?g ?h ?s] =>
          destruct (set_label_extends a b c d e f g h s) as [rest Hrest]
      end;
      exists rest; rewrite Hrest; cbn [ax]; symmetry; apply app_assoc.
Qed.

Lemma set_label_returns (x y size : R) (label : option string) (lp : string)
      (pad : R) (tc : string) (fs : R) (s : OpticalTable.t) :
  label = None \/ str_in lp label_sides = true ->
  snd (set_label x y size label lp pad tc fs s) = Ok tt.
Proof.
  intros H. destruct label as [l|]; [|reflexivity].
  destruct H as [H|H]; [discriminate H|].
  apply str_in_cases in H. unfold label_sides in H. cbn [In] in H.
  destruct H as [<-|[<-|[<-|[<-|[<-|[]]]]]]; reflexivity.
Qed.

Lemma snd_bind_lift {S A B : Type} (m : M S A) (r : result B) (s : S) (a : A) :
  snd (m s) = Ok a -> snd ((m ;; lift r) s) = r.
Proof.
  unfold bind, lift. destruct (m s) as [s' [a'|e]]; cbn [snd]; intros H;
    [reflexivity | discriminate H].
Qed.

Lemma box_side_midpoints (x y size_x size_y angle : R) :
  let c := cos (angle * (PI / 180)) in
  let s := sin (angle * (PI / 180)) in
  Tools.get_midpoint (top_right x y size_x size_y angle,
                      top_left x y size_x size_y angle)
  = (x - size_y / 2 * s, y + size_y / 2 * c)
  /\ Tools.get_midpoint (bottom_left x y size_x size_y angle,
                         bottom_right x y size_x size_y angle)
     = (x + size_y / 2 * s, y - size_y / 2 * c)
  /\ Tools.get_midpoint (bottom_left x y size_x size_y angle,
                         top_left x y size_x size_y angle)
     = (x - size_x / 2 * c, y - size_x / 2 * s)
  /\ Tools.get_midpoint (bottom_right x y size_x size_y angle,
                         top_right x y size_x size_y angle)
     = (x + size_x / 2 * c, y + size_x / 2 * s).
Proof.
  intros c s.
  unfold Tools.get_midpoint, top_right, top_left, bottom_left, bottom_right,
    Tools.rotate_point, Tools.deg_to_rad.
  cbn [fst snd]. fold c s. rewrite half_decimal.
  repeat apply conj; f_equal; field.
Qed.

Lemma box_source_returns (x y size_x size_y angle : R)
      (output_side colour : string) (label : option string) (lp : string)
      (pad : R) (tc : string) (fs : R) (self : OpticalTable.t)
      (side : (R * R) * (R * R)) (p : R * R) :
  In (output_side, side)
     [("top"%string, (top_right x y size_x size_y angle,
                      top_left x y size_x size_y angle));
      ("bottom"%string, (bottom_left x y size_x size_y angle,
                         bottom_right x y size_x size_y angle));
      ("left"%string, (bottom_left x y size_x size_y angle,
                       top_left x y size_x size_y angle));
      ("right"%string, (bottom_right x y size_x size_y angle,
                        top_right x y size_x size_y angle))] ->
  label = None \/ str_in lp label_sides = true ->
  Tools.get_midpoint side = p ->
  snd (box_source x y size_x size_y angle output_side colour label lp pad tc
                  fs self)
  = Ok (OpticalElement.mk (fst p) (snd p) "t" (Some angle)).
Proof.
  intros Hin Hl <-. rewrite (box_source_run _ _ _ _ _ _ _ _ _ _ _ _ _ _ Hin).
  erewrite snd_bind_lift by (apply set_label_returns; exact Hl).
  reflexivity.
Qed.

Lemma trig_quarter_turn :
  cos (90 * (PI / 180)) = 0 /\ sin (90 * (PI / 180)) = 1.
Proof.
  replace (90 * (PI / 180)) with (PI / 2) by field.
  split; [apply cos_PI2 | apply sin_PI2].
Qed.

Lemma trig_no_turn : cos (0 * (PI / 180)) = 1 /\ sin (0 * (PI / 180)) = 0.
Proof. rewrite Rmult_0_l. split; [apply cos_0 | apply sin_0]. Qed.

(** C8.  Every [box_source] call that returns, that is with a valid
    [output_side] and with no label or a label at a valid position, returns
    the handle whose anchor is the midpoint of the side of the rotated box
    that [output_side] names.  With [c] and [s] the cosine and sine of
    [angle] degrees, that point is [(x - size_y/2 s, y + size_y/2 c)] for
    top, [(x + size_y/2 s, y - size_y/2 c)] for bottom,
    [(x - size_x/2 c, y - size_x/2 s)] for left and
    [(x + size_x/2 c, y + size_x/2 s)] for right.  So
    [box_source(0, 0, 4, 2, 0, 'right')] has anchor [(2, 0)],
    [box_source(0, 0, 4, 2, 0, 'top')] has anchor [(0, 1)], and
    [box_source(0, 0, 4, 2, 90, 'right')] has anchor [(0, 2)]. *)
Theorem box_source_anchor_is_side_midpoint
        (x y size_x size_y angle : R) (colour : string)
        (label : option string) (lp : string) (pad : R) (tc : string) (fs : R)
        (self : OpticalTable.t) :
  label = None \/ str_in lp label_sides = true ->
  let c := cos (angle * (PI / 180)) in
  let s := sin (angle * (PI / 180)) in
  let returned output_side :=
    snd (box_source x y size_x size_y angle output_side colour
                    label lp pad tc fs self) in
  let anchored_at (p : R * R) :=
    Ok (OpticalElement.mk (fst p) (snd p) "t" (Some angle)) in
  (returned "top"%string = anchored_at (x - size_y / 2 * s, y + size_y / 2 * c)
   /\ returned "bottom"%string
      = anchored_at (x + size_y / 2 * s, y - size_y / 2 * c)
   /\ returned "left"%string
      = anchored_at (x - size_x / 2 * c, y - size_x / 2 * s)
   /\ returned "right"%string
      = anchored_at (x + size_x / 2 * c, y + size_x / 2 * s))
  /\ (Tools.get_midpoint (top_right x y size_x size_y angle,
                          top_left x y size_x size_y angle)
      = (x - size_y / 2 * s, y + size_y / 2 * c)
      /\ Tools.get_midpoint (bottom_left x y size_x size_y angle,
                             bottom_right x y size_x size_y angle)
         = (x + size_y / 2 * s, y - size_y / 2 * c)
      /\ Tools.get_midpoint (bottom_left x y size_x size_y angle,
                             top_left x y size_x size_y angle)
         = (x - size_x / 2 * c, y - size_x / 2 * s)
      /\ Tools.get_midpoint (bottom_right x y size_x size_y angle,
                             top_right x y size_x size_y angle)
         = (x + size_x / 2 * c, y + size_x / 2 * s))
  /\ snd (box_source 0 0 4 2 0 "right" colour label lp pad tc fs self)
     = Ok (OpticalElement.mk 2 0 "t" (Some 0))
  /\ snd (box_source 0 0 4 2 0 "top" colour label lp pad tc fs self)
     = Ok (OpticalElement.mk 0 1 "t" (Some 0))
  /\ snd (box_source 0 0 4 2 90 "right" colour label lp pad tc fs self)
     = Ok (OpticalElement.mk 0 2 "t" (Some 90)).
Proof.
  intros Hl c s returned anchored_at. unfold returned, anchored_at.
  destruct (box_side_midpoints x y size_x size_y angle) as (Mt & Mb & Ml & Mr).
  fold c s in Mt, Mb, Ml, Mr.
  split; [|split; [|split; [|split]]].
  - repeat apply conj.
    + eapply box_source_returns; [cbn [In]; eauto 6 | exact Hl | exact Mt].
    + eapply box_source_returns; [cbn [In]; eauto 6 | exact Hl | exact Mb].
    + eapply box_source_returns; [cbn [In]; eauto 6 | exact Hl | exact Ml].
    + eapply box_source_returns; [cbn [In]; eauto 6 | exact Hl | exact Mr].
  - repeat apply conj; assumption.
  - destruct (box_side_midpoints 0 0 4 2 0) as (_ & _ & _ & M).
    destruct trig_no_turn as [Ec Es]. rewrite Ec, Es in M.
    erewrite box_source_returns; [| cbn [In]; eauto 6 | exact Hl | exact M].
    cbn [fst snd]. f_equal. f_equal; lra.
  - destruct (box_side_midpoints 0 0 4 2 0) as (M & _).
    destruct trig_no_turn as [Ec Es]. rewrite Ec, Es in M.
    erewrite box_source_returns; [| cbn [In]; eauto 6 | exact Hl | exact M].
    cbn [fst snd]. f_equal. f_equal; lra.
  - destruct (box_side_midpoints 0 0 4 2 90) as (_ & _ & _ & M).
    destruct trig_quarter_turn as [Ec Es]. rewrite Ec, Es in M.
    erewrite box_source_returns; [| cbn [In]; eauto 6 | exact Hl | exact M].
    cbn [fst snd]. f_equal. f_equal; lra.
Qed.

(** The laser of the example layout: a labelled source whose beam leaves on
    the right. *)
Lemma box_source_anchor_is_side_midpoint_witness :
  snd (box_source (-5) 0 4 2 0 "right" "k" (Some "Laser"%string) "top" 0.25
                  "green" 8 (OpticalTable.mk [] 2))
  = Ok (OpticalElement.mk (-5 + 4 / 2 * cos (0 * (PI / 180)))
                          (0 + 4 / 2 * sin (0 * (PI / 180))) "t" (Some 0)).
Proof.
  apply (proj2 (proj2 (proj2 (proj1
           (box_source_anchor_is_side_midpoint
              (-5) 0 4 2 0 "k" (Some "Laser"%string) "top" 0.25 "green" 8
              (OpticalTable.mk [] 2) (or_intror eq_refl)))))).
Defined.

(** ** transmissive_cube and beamsplitter_cube *)










(** ** The handle *)

Lemma returns_bind {S A B : Type} (m : M S A) (k : A -> M S B) (P : B -> Prop) :
  (forall a, returns (k a) P) -> returns (bind m k) P.
Proof.
  intros H s s' b Hrun. unfold bind in Hrun.
  destruct (m s) as [s1 [a|e]]; [|discriminate].
  exact (H a s1 s' b Hrun).
Qed.

Lemma returns_bind_with {S A B : Type} (m : M S A) (k : A -> M S B)
      (Q : A -> Prop) (P : B -> Prop) :
  returns m Q -> (forall a, Q a -> returns (k a) P) -> returns (bind m k) P.
Proof.
  intros Hm H s s' b Hrun. unfold bind in Hrun.
  destruct (m s) as [s1 [a|e]] eqn:Em; [|discriminate].
  exact (H a (Hm s s1 a Em) s1 s' b Hrun).
Qed.

Lemma returns_lift_Ok {S A : Type} (v : A) : returns (S := S) (lift (Ok v)) (eq v).
Proof. intros s s' a H. unfold lift in H. congruence. Qed.

Lemma returns_ret {S A : Type} (v : A) : returns (S := S) (ret v) (eq v).
Proof. intros s s' a H. unfold ret in H. congruence. Qed.

Lemma returns_weaken {S A : Type} (m : M S A) (P Q : A -> Prop) :
  (forall a, P a -> Q a) -> returns m P -> returns m Q.
Proof. intros HPQ H s s' a Hrun. apply HPQ. exact (H s s' a Hrun). Qed.

Ltac returns_step :=
  match goal with
  | |- returns (bind _ _) _ => apply returns_bind; intros
  | |- returns (match ?c with _ => _ end) _ => destruct c
  | |- returns (lift (OpticalElement.__init__ _ _ _ _ _)) _ =>
      apply returns_lift_Ok
  end.

Lemma init_valid (x y : R) (mode : string) (angle : option R) (kind : string) :
  In mode allowed_modes -> In kind allowed_types ->
  OpticalElement.__init__ x y mode angle (Some kind)
  = Ok (OpticalElement.mk x y mode angle).
Proof.
  intros Hm Hk. unfold OpticalElement.__init__.
  rewrite (proj2 (str_in_cases _ _) Hm), (proj2 (str_in_cases _ _) Hk).
  reflexivity.
Qed.

Lemma init_invalid (x y : R) (mode : string) (angle : option R)
      (element_type : option string) :
  ~ (In mode allowed_modes
     /\ exists kind, element_type = Some kind /\ In kind allowed_types) ->
  exists msg,
    OpticalElement.__init__ x y mode angle element_type = Raise (ValueError msg).
Proof.
  intros H. unfold OpticalElement.__init__.
  destruct (str_in mode allowed_modes) eqn:Hm; cbn [negb].
  - destruct element_type as [kind|].
    + destruct (str_in kind allowed_types) eqn:Hk; cbn [negb].
      * exfalso. apply H. split; [apply str_in_cases; exact Hm|].
        exists kind. split; [reflexivity | apply str_in_cases; exact Hk].
      * eexists. reflexivity.
    + eexists. reflexivity.
  - eexists. reflexivity.
Qed.

(** C2, as the code has it.  The handle is a record of anchor position,
    interaction mode and orientation only.  The constructor checks the mode
    against ['r'], ['t'] and the kind against the twelve element types, and
    fails with [ValueError] otherwise; the kind is not stored.  Whatever a
    placement operation returns is that record, with the anchor, mode and
    orientation of the method. *)
Theorem handle_records_anchor_mode_orientation
        (x y size size_y angle : R) (colour : string)
        (label : option string) (lp : string) (pad : R) (tc : string) (fs : R) :
  (forall mode orientation kind,
      In mode allowed_modes -> In kind allowed_types ->
      OpticalElement.__init__ x y mode orientation (Some kind)
      = Ok (OpticalElement.mk x y mode orientation))
  /\ (forall mode orientation element_type,
         ~ (In mode allowed_modes
            /\ exists kind, element_type = Some kind /\ In kind allowed_types) ->
         exists msg,
           OpticalElement.__init__ x y mode orientation element_type
           = Raise (ValueError msg))
  /\ returns (mirror x y size angle colour label lp pad tc fs)
             (eq (OpticalElement.mk x y "r" (Some angle)))
  /\ (forall lens_factor,
         returns (convex_lens x y size angle colour lens_factor
                              label lp pad tc fs)
                 (eq (OpticalElement.mk x y "t" (Some angle))))
  /\ (forall lens_factor,
         returns (concave_mirror x y size angle colour lens_factor
                                 label lp pad tc fs)
                 (eq (OpticalElement.mk x y "r" (Some angle))))
  /\ (forall offset_factor lens_factor,
         returns (concave_lens x y size angle colour offset_factor lens_factor
                               label lp pad tc fs)
                 (eq (OpticalElement.mk x y "t" (Some angle))))
  /\ (forall offset_factor fill fillcolour zorder,
         returns (transmissive_plate x y size angle colour offset_factor fill
                                     fillcolour label lp pad tc fs zorder)
                 (eq (OpticalElement.mk x y "t" (Some angle))))
  /\ returns (transmissive_cube x y size angle colour label lp pad tc fs)
             (eq (OpticalElement.mk x y "t" (Some angle)))
  /\ (forall direction,
         returns (beamsplitter_cube x y size angle direction colour
                                    label lp pad tc fs)
                 (eq (OpticalElement.mk x y "t" (Some angle))))
  /\ (forall linestyle,
         returns (box x y size size_y angle colour linestyle true
                      label lp pad tc fs)
                 (eq (BoxElement (OpticalElement.mk x y "t" (Some angle)))))
  /\ (forall output_side,
         returns (box_source x y size size_y angle output_side colour
                             label lp pad tc fs)
                 (fun h => h = OpticalElement.mk (OpticalElement.x h)
                                                 (OpticalElement.y h)
                                                 "t" (Some angle)))
  /\ returns (point_source x y label lp pad tc fs)
             (eq (OpticalElement.mk x y "t" None))
  /\ (forall fillcolour,
         returns (beam_dump x y size angle colour fillcolour
                            label lp pad tc fs)
                 (eq (OpticalElement.mk x y "t" None)))
  /\ (forall fill fillcolour,
         returns (generic_circle x y size colour fill fillcolour
                                 label lp pad tc fs)
                 (eq (OpticalElement.mk x y "t" None))).
Proof.
  repeat apply conj.
  - intros. apply init_valid; assumption.
  - intros. apply init_invalid; assumption.
  - unfold mirror. repeat returns_step.
  - intros. unfold convex_lens. repeat returns_step.
  - intros. unfold concave_mirror. repeat returns_step.
  - intros. unfold concave_lens. repeat returns_step.
  - intros. unfold transmissive_plate. repeat returns_step.
  - unfold transmissive_cube. repeat returns_step.
  - intros. unfold beamsplitter_cube. repeat returns_step.
  - intros. unfold box. apply returns_bind; intros _. cbv iota.
    apply returns_bind; intros _.
    apply (returns_bind_with _ _ (eq (OpticalElement.mk x y "t" (Some angle)))).
    + apply returns_lift_Ok.
    + intros e <-. apply returns_ret.
  - intros. unfold box_source. repeat returns_step.
    eapply returns_weaken; [|apply returns_lift_Ok].
    intros h <-. reflexivity.
  - unfold point_source. repeat returns_step.
  - intros. unfold beam_dump. repeat returns_step.
  - intros. unfold generic_circle. repeat returns_step.
Qed.

Lemma handle_records_anchor_mode_orientation_witness :
  OpticalElement.__init__ 1 2 "r" (Some 45) (Some "mirror"%string)
  = Ok (OpticalElement.mk 1 2 "r" (Some 45))
  /\ (exists msg,
         OpticalElement.__init__ 1 2 "r" (Some 45) (Some "prism"%string)
         = Raise (ValueError msg))
  /\ snd (mirror 1 2 3 45 "k" None "bottom" 0.25 "k" 8 (OpticalTable.mk [] 1))
     = Ok (OpticalElement.mk 1 2 "r" (Some 45)).
Proof.
  destruct (handle_records_anchor_mode_orientation
              1 2 3 3 45 "k" None "bottom" 0.25 "k" 8) as (T1 & T2 & T3 & _).
  split; [|split].
  - apply T1; cbn [In allowed_modes allowed_types]; auto.
  - apply T2. intros [_ (kind & E & Hin)]. injection E as <-.
    cbn [In allowed_types] in Hin.
    repeat (destruct Hin as [Hin|Hin]; [discriminate Hin|]). exact Hin.
  - destruct (mirror 1 2 3 45 "k" None "bottom" 0.25 "k" 8 (OpticalTable.mk [] 1))
      as [s' r] eqn:Hrun.
    destruct r as [h|e].
    + rewrite <- (T3 _ _ _ Hrun). reflexivity.
    + rewrite mirror_unlabelled in Hrun. discriminate Hrun.
Defined.

(** C2 fails as stated: two constructions that differ only in the kind give
    the same handle, so no function of the handle recovers the kind it was
    built with. *)
Lemma kind_is_not_retained :
  OpticalElement.__init__ 0 0 "t" None (Some "point_source"%string)
  = Ok (OpticalElement.mk 0 0 "t" None)
  /\ OpticalElement.__init__ 0 0 "t" None (Some "generic_circle"%string)
     = Ok (OpticalElement.mk 0 0 "t" None)
  /\ ~ exists kind_of : OpticalElement.t -> string,
         forall x y mode angle kind h,
           OpticalElement.__init__ x y mode angle (Some kind) = Ok h ->
           kind_of h = kind.
Proof.
  split; [reflexivity|]. split; [reflexivity|].
  intros [kind_of H].
  pose proof (H 0 0 "t"%string None "point_source"%string _ eq_refl) as H1.
  pose proof (H 0 0 "t"%string None "generic_circle"%string _ eq_refl) as H2.
  rewrite H1 in H2. discriminate H2.
Qed.

(** ** Validation order *)



Section BadLabelPosition.

Variables (x y size : R) (colour l lp : string) (pad : R) (tc : string) (fs : R).
Variable self : OpticalTable.t.
Hypothesis Hlp : str_in lp label_sides = false.











End BadLabelPosition.

Lemma get_label_coords_any_string_size (lp : pyval) (x y : R) (s : string)
      (pad : pyval) :
  Tools.get_label_coords_any lp x y (VStr s) pad = Raise TypeError.
Proof. reflexivity. Qed.

Lemma get_label_coords_any_typed (lp : string) (x y size pad : R) :
  Tools.get_label_coords_any (VStr lp) x y (VNum size) (VNum pad)
  = Tools.get_label_coords lp x y size pad.
Proof. reflexivity. Qed.

Lemma set_label_any_typed (x y size : R) (label : option string) (lp : string)
      (pad : R) (tc : string) (fs : R) :
  set_label_any x y (VNum size)
                (match label with Some l => VStr l | None => VNone end)
                (VStr lp) (VNum pad) tc fs
  = set_label x y size label lp pad tc fs.
Proof. destruct label; reflexivity. Qed.

Lemma point_source_run (x y : R) (label : option string) (lp : string)
      (pad : R) (tc : string) (fs : R) (self : OpticalTable.t) :
  point_source x y label lp pad tc fs self
  = (self,
     match label with
     | None => Ok (OpticalElement.mk x y "t" None)
     | Some l => if (l =? "")%string
                 then Ok (OpticalElement.mk x y "t" None)
                 else Raise TypeError
     end).
Proof.
  unfold point_source. unfold bind.
  destruct label as [l|]; [|reflexivity].
  destruct (l =? "")%string; [reflexivity|].
  unfold set_label_any, bind, lift.
  rewrite get_label_coords_any_string_size. reflexivity.
Qed.




(** ** Table construction *)

Lemma for_plt {A : Type} (g : A -> backend_call) (l : list A) (a : Axes) :
  for_ l (fun v => plt (g v)) a = (a ++ map g l, Ok tt).
Proof.
  revert a. induction l as [|v l IH]; intros a.
  - cbn. rewrite app_nil_r. reflexivity.
  - cbn [for_ map]. unfold bind, plt at 1. rewrite IH, <- app_assoc. reflexivity.
Qed.

Lemma Int_part_IZR (z : Z) : Int_part (IZR z) = z.
Proof.
  unfold Int_part.
  rewrite <- (tech_up (IZR z) (z + 1)).
  - lia.
  - rewrite plus_IZR. lra.
  - rewrite plus_IZR. lra.
Qed.

Lemma is_integer_IZR (z : Z) : is_integer (IZR z) = true.
Proof.
  unfold is_integer. rewrite Int_part_IZR.
  destruct (Req_dec_T (IZR z) (IZR z)); congruence.
Qed.


Lemma py_int_IZR (z : Z) : py_int (IZR z) = z.
Proof.
  unfold py_int. destruct (Rle_dec 0 (IZR z)).
  - apply Int_part_IZR.
  - rewrite <- opp_IZR, Int_part_IZR. lia.
Qed.



Lemma create_with_grid (length width sf : R) (ec : string) (gs : R) (gc : string)
      (se sl : bool) :
  gs <> 0 -> width <> 0 ->
  is_integer (length / gs) = true -> is_integer (width / gs) = true ->
  create length width sf ec gs gc se true sl
  = Ok (OpticalTable.mk
          (table_frame length width sf ec se
           ++ grid_calls length width gc (grid_coordinates length gs)
                         (grid_coordinates width gs) sl)
          (length / width)).
Proof.
  intros Hgs Hw Hx Hy. unfold create, __init__.
  unfold bind at 1. unfold bind at 1. unfold bind at 1. unfold bind at 1.
  unfold bind at 1. unfold bind at 1. unfold plt at 1 2 3 4 5 6. cbn [app].
  unfold bind at 1. unfold bind at 1. unfold lift at 1.
  rewrite (truediv_nonzero _ _ Hgs).
  unfold bind at 1. rewrite Hx. unfold ret at 1.
  unfold bind at 1. unfold lift at 1. rewrite (truediv_nonzero _ _ Hgs).
  unfold bind at 1. rewrite Hy. unfold ret at 1.
  unfold bind at 1. rewrite for_plt.
  unfold bind at 1. rewrite for_plt.
  rewrite (truediv_nonzero _ _ Hw).
  unfold grid_calls, table_frame, grid_coordinates.
  destruct sl.
  - unfold bind at 1. rewrite for_plt. rewrite for_plt.
    unfold lift. cbn [snd]. rewrite <- !app_assoc. reflexivity.
  - unfold ret, lift. cbn [snd]. rewrite app_nil_r, <- !app_assoc. reflexivity.
Qed.




(** * Further properties *)

(** ** Tools *)

Lemma deg_to_rad_plus (a b : R) :
  Tools.deg_to_rad (a + b) = Tools.deg_to_rad a + Tools.deg_to_rad b.
Proof. unfold Tools.deg_to_rad. ring. Qed.

Lemma deg_to_rad_opp (a : R) : Tools.deg_to_rad (- a) = - Tools.deg_to_rad a.
Proof. unfold Tools.deg_to_rad. ring. Qed.

Lemma deg_to_rad_360 : Tools.deg_to_rad 360 = 2 * PI.
Proof. unfold Tools.deg_to_rad. field. Qed.

Lemma rotate_point_plus (p o : R * R) (a b : R) :
  Tools.rotate_point (Tools.rotate_point p a o) b o
  = Tools.rotate_point p (a + b) o.
Proof.
  destruct p as [px py], o as [ox oy]. unfold Tools.rotate_point.
  cbn [fst snd]. rewrite deg_to_rad_plus, cos_plus, sin_plus.
  f_equal; ring.
Qed.

(** X1.  Rotations about one origin compose by adding their angles; rotating
    by [- angle] undoes rotating by [angle], and rotating by 0 changes
    nothing. *)
Theorem rotate_point_composes (p o : R * R) (a b : R) :
  Tools.rotate_point (Tools.rotate_point p a o) b o
  = Tools.rotate_point p (a + b) o
  /\ Tools.rotate_point (Tools.rotate_point p a o) (- a) o = p
  /\ Tools.rotate_point p 0 o = p.
Proof.
  repeat apply conj.
  - apply rotate_point_plus.
  - rewrite rotate_point_plus. replace (a + - a) with 0 by ring.
    apply rotate_point_0.
  - apply rotate_point_0.
Qed.

Lemma cosd_period (a : R) : Tools.cosd (a + 360) = Tools.cosd a.
Proof.
  unfold Tools.cosd. rewrite deg_to_rad_plus, deg_to_rad_360, cos_plus,
    cos_2PI, sin_2PI. ring.
Qed.

Lemma sind_period (a : R) : Tools.sind (a + 360) = Tools.sind a.
Proof.
  unfold Tools.sind. rewrite deg_to_rad_plus, deg_to_rad_360, sin_plus,
    cos_2PI, sin_2PI. ring.
Qed.

(** X2.  [rotate_point] is periodic in the angle with period 360 degrees,
    and it leaves the origin of the rotation where it is. *)
Theorem rotate_point_period_and_centre (p o : R * R) (a : R) :
  Tools.rotate_point p (a + 360) o = Tools.rotate_point p a o
  /\ Tools.rotate_point o a o = o.
Proof.
  destruct p as [px py], o as [ox oy]. split.
  - unfold Tools.rotate_point.
    fold (Tools.cosd (a + 360)) (Tools.sind (a + 360)) (Tools.cosd a)
         (Tools.sind a).
    rewrite cosd_period, sind_period. reflexivity.
  - unfold Tools.rotate_point. cbn [fst snd]. f_equal; ring.
Qed.

Lemma dist_rotate_point (p q o : R * R) (a : R) :
  dist (Tools.rotate_point p a o, Tools.rotate_point q a o) = dist (p, q).
Proof.
  destruct p as [px py], q as [qx qy], o as [ox oy].
  unfold dist, Tools.rotate_point. cbn [fst snd].
  set (c := cos _). set (s := sin _).
  assert (H : c² + s² = 1).
  { unfold c, s. rewrite Rplus_comm. apply sin2_cos2. }
  f_equal.
  replace (_ + _) with (((qx - px)² + (qy - py)²) * (c² + s²))
    by (unfold Rsqr; ring).
  rewrite H. ring.
Qed.

(** X3.  [rotate_point] is an isometry: the distance between two points is
    the distance between their images, and every image is as far from the
    origin of the rotation as the point was. *)
Theorem rotate_point_preserves_distance (p q o : R * R) (a : R) :
  dist (Tools.rotate_point p a o, Tools.rotate_point q a o) = dist (p, q)
  /\ dist (o, Tools.rotate_point p a o) = dist (o, p).
Proof.
  split.
  - apply dist_rotate_point.
  - assert (Ho : Tools.rotate_point o a o = o).
    { destruct o as [ox oy]. unfold Tools.rotate_point. cbn [fst snd].
      f_equal; ring. }
    transitivity (dist (Tools.rotate_point o a o, Tools.rotate_point p a o)).
    + rewrite Ho. reflexivity.
    + apply dist_rotate_point.
Qed.

Lemma midpoint_rotate_point (p q o : R * R) (a : R) :
  Tools.get_midpoint (Tools.rotate_point p a o, Tools.rotate_point q a o)
  = Tools.rotate_point (Tools.get_midpoint (p, q)) a o.
Proof.
  destruct p as [px py], q as [qx qy], o as [ox oy].
  unfold Tools.get_midpoint, Tools.rotate_point. cbn [fst snd].
  rewrite half_decimal. f_equal; field.
Qed.

(** X4.  The midpoint does not depend on the order of the two end points, it
    is equally far from both, and the midpoint of two rotated points is the
    rotated midpoint. *)
Theorem get_midpoint_symmetric_equidistant (p q o : R * R) (a : R) :
  Tools.get_midpoint (p, q) = Tools.get_midpoint (q, p)
  /\ dist (p, Tools.get_midpoint (p, q)) = dist (Tools.get_midpoint (p, q), q)
  /\ Tools.get_midpoint (Tools.rotate_point p a o, Tools.rotate_point q a o)
     = Tools.rotate_point (Tools.get_midpoint (p, q)) a o.
Proof.
  repeat apply conj.
  - destruct p as [px py], q as [qx qy]. unfold Tools.get_midpoint.
    cbn [fst snd]. f_equal; ring.
  - destruct p as [px py], q as [qx qy]. unfold dist, Tools.get_midpoint.
    cbn [fst snd]. rewrite half_decimal. f_equal. unfold Rsqr. field.
  - apply midpoint_rotate_point.
Qed.

(** X5.  The two unit conversions are inverse to each other. *)
Theorem inch_mm_round_trip (v : R) :
  Tools.mm_to_inch (Tools.inch_to_mm v) = v
  /\ Tools.inch_to_mm (Tools.mm_to_inch v) = v.
Proof. unfold Tools.mm_to_inch, Tools.inch_to_mm. split; lra. Qed.

(** X6.  The trigonometric helpers work in degrees: they have period 360,
    their squares add up to 1, and at 90 and 180 degrees they take the values
    of the quarter and the half turn. *)
Theorem sind_cosd_in_degrees (a : R) :
  Tools.sind (a + 360) = Tools.sind a
  /\ Tools.cosd (a + 360) = Tools.cosd a
  /\ (Tools.sind a)² + (Tools.cosd a)² = 1
  /\ Tools.sind 90 = 1 /\ Tools.cosd 90 = 0
  /\ Tools.sind 180 = 0 /\ Tools.cosd 180 = -1.
Proof.
  repeat apply conj.
  - apply sind_period.
  - apply cosd_period.
  - apply sin2_cos2.
  - unfold Tools.sind, Tools.deg_to_rad.
    replace (90 * (PI / 180)) with (PI / 2) by field. apply sin_PI2.
  - unfold Tools.cosd, Tools.deg_to_rad.
    replace (90 * (PI / 180)) with (PI / 2) by field. apply cos_PI2.
  - unfold Tools.sind, Tools.deg_to_rad.
    replace (180 * (PI / 180)) with PI by field. apply sin_PI.
  - unfold Tools.cosd, Tools.deg_to_rad.
    replace (180 * (PI / 180)) with PI by field. apply cos_PI.
Qed.

Lemma dist_vertical (x y d : R) : dist ((x, y), (x, y + d)) = Rabs d.
Proof.
  unfold dist. cbn [fst snd].
  replace ((x - x)² + (y + d - y)²) with d² by (unfold Rsqr; ring).
  apply sqrt_Rsqr_abs.
Qed.

Lemma dist_horizontal (x y d : R) : dist ((x, y), (x + d, y)) = Rabs d.
Proof.
  unfold dist. cbn [fst snd].
  replace ((x + d - x)² + (y - y)²) with d² by (unfold Rsqr; ring).
  apply sqrt_Rsqr_abs.
Qed.

Lemma get_label_coords_distance
      (label_pos : string) (x y size labelpad : R) :
  str_in label_pos label_sides = true ->
  exists p,
    Tools.get_label_coords label_pos x y size labelpad = Ok p
    /\ dist ((x, y), p)
       = if (label_pos =? "centre")%string then 0
         else Rabs (size * 0.5 + labelpad).
Proof.
  intros H.
  apply str_in_cases in H. unfold label_sides in H. cbn [In] in H.
  destruct H as [<-|[<-|[<-|[<-|[<-|[]]]]]];
    eexists; (split; [reflexivity|]);
    cbn [String.eqb Ascii.eqb Bool.eqb andb]; cbv iota.
  - apply dist_vertical.
  - unfold Rminus. rewrite dist_vertical. apply Rabs_Ropp.
  - unfold Rminus. rewrite dist_horizontal. apply Rabs_Ropp.
  - apply dist_horizontal.
  - unfold dist. cbn [fst snd].
    replace ((x - x)² + (y - y)²) with 0 by (unfold Rsqr; ring).
    apply sqrt_0.
Qed.

(** X7.  [get_label_coords] accepts exactly the five positions top, bottom,
    left, right and centre.  For centre the label sits on the element; for
    the other four it sits at distance [|size/2 + labelpad|] from it.  Any
    other position raises [ValueError]. *)
Theorem get_label_coords_accepts_five_positions
        (label_pos : string) (x y size labelpad : R) :
  if str_in label_pos label_sides then
    exists p,
      Tools.get_label_coords label_pos x y size labelpad = Ok p
      /\ dist ((x, y), p)
         = if (label_pos =? "centre")%string then 0
           else Rabs (size * 0.5 + labelpad)
  else
    exists msg,
      Tools.get_label_coords label_pos x y size labelpad
      = Raise (ValueError msg).
Proof.
  destruct (str_in label_pos label_sides) eqn:H.
  - apply get_label_coords_distance. exact H.
  - rewrite (get_label_coords_invalid _ _ _ _ _ H). eexists. reflexivity.
Qed.

(** ** concave_mirror *)

Lemma concave_mirror_unlabelled (x y size angle : R) (colour : string)
      (lens_factor : R) (lp : string) (pad : R) (tc : string) (fs : R)
      (self : OpticalTable.t) :
  let h := size * aspect_ratio self * lens_factor in
  let rot := Tools.rotate_point (0, h * 0.5) angle (0, 0) in
  concave_mirror x y size angle colour lens_factor None lp pad tc fs self
  = (OpticalTable.mk
       (ax self ++ [AddArc (x - fst rot, y - snd rot)
                           (size * aspect_ratio self) h angle 0 180 colour])
       (aspect_ratio self),
     Ok (OpticalElement.mk x y "r" (Some angle))).
Proof. reflexivity. Qed.

(** X8.  [concave_mirror] with no label draws exactly one arc, a half
    ellipse of width [size * aspect_ratio] and height [width * lens_factor]
    tilted by [angle].  Its centre is placed so that the end of the
    semi-axis of length [height / 2], turned with the arc, is the point
    [(x, y)] the caller gave, which is also the anchor of the handle. *)
Theorem concave_mirror_contact_point
        (x y size angle : R) (colour : string) (lens_factor : R)
        (lp : string) (pad : R) (tc : string) (fs : R)
        (self : OpticalTable.t) :
  let w := size * aspect_ratio self in
  let h := w * lens_factor in
  exists c : R * R,
    concave_mirror x y size angle colour lens_factor None lp pad tc fs self
    = (OpticalTable.mk (ax self ++ [AddArc c w h angle 0 180 colour])
                       (aspect_ratio self),
       Ok (OpticalElement.mk x y "r" (Some angle)))
    /\ Tools.rotate_point (fst c, snd c + h / 2) angle c = (x, y)
    /\ dist (c, (x, y)) = Rabs (h / 2).
Proof.
  intros w h. eexists. split; [apply concave_mirror_unlabelled|].
  cbv zeta. fold w. fold h.
  assert (E : Tools.rotate_point
                (fst (x - fst (Tools.rotate_point (0, h * 0.5) angle (0, 0)),
                      y - snd (Tools.rotate_point (0, h * 0.5) angle (0, 0))),
                 snd (x - fst (Tools.rotate_point (0, h * 0.5) angle (0, 0)),
                      y - snd (Tools.rotate_point (0, h * 0.5) angle (0, 0)))
                 + h / 2) angle
                (x - fst (Tools.rotate_point (0, h * 0.5) angle (0, 0)),
                 y - snd (Tools.rotate_point (0, h * 0.5) angle (0, 0)))
              = (x, y)).
  { unfold Tools.rotate_point. cbn [fst snd]. rewrite half_decimal.
    f_equal; field. }
  split; [exact E|].
  rewrite <- E.
  set (c := (x - _, y - _)).
  transitivity (dist (c, (fst c, snd c + h / 2))).
  - assert (Hc : Tools.rotate_point c angle c = c).
    { destruct c as [cx cy]. unfold Tools.rotate_point. cbn [fst snd].
      f_equal; ring. }
    rewrite <- Hc at 1. apply dist_rotate_point.
  - destruct c as [cx cy]. cbn [fst snd]. apply dist_vertical.
Qed.

(** ** What every method leaves alone *)

Lemma extends_refl (s : OpticalTable.t) : extends s s.
Proof. split; [reflexivity|]. exists []. symmetry. apply app_nil_r. Qed.

Lemma extends_trans (s1 s2 s3 : OpticalTable.t) :
  extends s1 s2 -> extends s2 s3 -> extends s1 s3.
Proof.
  intros [Ha [r1 H1]] [Hb [r2 H2]]. split; [congruence|].
  exists (r1 ++ r2). rewrite H2, H1. symmetry. apply app_assoc.
Qed.

Lemma appends_only_ret {A : Type} (a : A) : appends_only (ret a).
Proof. intros s. apply extends_refl. Qed.

Lemma appends_only_raise {A : Type} (e : exn) : appends_only (A := A) (raise e).
Proof. intros s. apply extends_refl. Qed.

Lemma appends_only_lift {A : Type} (r : result A) : appends_only (lift r).
Proof. intros s. apply extends_refl. Qed.

Lemma appends_only_aspect_ratio : appends_only self_aspect_ratio.
Proof. intros s. apply extends_refl. Qed.

Lemma appends_only_ax_call (c : backend_call) : appends_only (ax_call c).
Proof. intros s. split; [reflexivity|]. exists [c]. reflexivity. Qed.

Lemma appends_only_bind {A B : Type} (m : M OpticalTable.t A)
      (k : A -> M OpticalTable.t B) :
  appends_only m -> (forall a, appends_only (k a)) -> appends_only (bind m k).
Proof.
  intros Hm Hk s. unfold bind. specialize (Hm s).
  destruct (m s) as [s1 [a|e]]; cbn [fst] in Hm.
  - eapply extends_trans; [exact Hm | apply Hk].
  - exact Hm.
Qed.

Lemma appends_only_for {A : Type} (l : list A) (body : A -> M OpticalTable.t unit) :
  (forall a, appends_only (body a)) -> appends_only (for_ l body).
Proof.
  intros H. induction l as [|a l IH]; cbn [for_].
  - apply appends_only_ret.
  - apply appends_only_bind; [apply H | intros _; exact IH].
Qed.

Ltac appends_step :=
  match goal with
  | |- appends_only (bind _ _) => apply appends_only_bind; intros
  | |- appends_only (ret _) => apply appends_only_ret
  | |- appends_only (raise _) => apply appends_only_raise
  | |- appends_only (lift _) => apply appends_only_lift
  | |- appends_only self_aspect_ratio => apply appends_only_aspect_ratio
  | |- appends_only (ax_call _) => apply appends_only_ax_call
  | |- appends_only (for_ _ _) => apply appends_only_for; intros
  | |- appends_only (match ?c with _ => _ end) => destruct c
  end.

Lemma appends_only_angled_line (x y size angle : R) (colour : string)
      (show get_coords : bool) :
  appends_only (angled_line x y size angle colour show get_coords).
Proof. unfold angled_line. repeat appends_step. Qed.

Lemma appends_only_set_label (x y size : R) (label : option string)
      (lp : string) (pad : R) (tc : string) (fs : R) :
  appends_only (set_label x y size label lp pad tc fs).
Proof. unfold set_label. repeat appends_step. Qed.

Lemma appends_only_set_label_any (x y : R) (size label lp pad : pyval)
      (tc : string) (fs : R) :
  appends_only (set_label_any x y size label lp pad tc fs).
Proof. unfold set_label_any. repeat appends_step. Qed.

Ltac appends_method :=
  repeat match goal with
         | |- appends_only (set_label_any _ _ _ _ _ _ _ _) =>
             apply appends_only_set_label_any
         | |- appends_only (angled_line _ _ _ _ _ _ _) =>
             apply appends_only_angled_line
         | |- appends_only (set_label _ _ _ _ _ _ _ _) =>
             apply appends_only_set_label
         | |- appends_only (transmissive_plate _ _ _ _ _ _ _ _ _ _ _ _ _ _) =>
             unfold transmissive_plate
         | |- appends_only (transmissive_cube _ _ _ _ _ _ _ _ _ _) =>
             unfold transmissive_cube
         | |- appends_only (box _ _ _ _ _ _ _ _ _ _ _ _ _) => unfold box
         | |- _ => appends_step
         end.

(** X9.  Whatever its arguments and however it ends, with a handle or with
    an exception, a method of the table leaves the aspect ratio as it was
    and the calls already on the axis in place: it only appends calls. *)
Theorem placements_only_append
        (x y size size_y angle : R) (colour : string)
        (label : option string) (lp : string) (pad : R) (tc : string) (fs : R) :
  appends_only (mirror x y size angle colour label lp pad tc fs)
  /\ (forall lens_factor,
         appends_only (convex_lens x y size angle colour lens_factor
                                   label lp pad tc fs))
  /\ (forall lens_factor,
         appends_only (concave_mirror x y size angle colour lens_factor
                                      label lp pad tc fs))
  /\ (forall offset_factor lens_factor,
         appends_only (concave_lens x y size angle colour offset_factor
                                    lens_factor label lp pad tc fs))
  /\ (forall offset_factor fill fillcolour zorder,
         appends_only (transmissive_plate x y size angle colour offset_factor
                                          fill fillcolour label lp pad tc fs
                                          zorder))
  /\ appends_only (transmissive_cube x y size angle colour label lp pad tc fs)
  /\ (forall direction,
         appends_only (beamsplitter_cube x y size angle direction colour
                                         label lp pad tc fs))
  /\ (forall linestyle standalone,
         appends_only (box x y size size_y angle colour linestyle standalone
                           label lp pad tc fs))
  /\ (forall output_side,
         appends_only (box_source x y size size_y angle output_side colour
                                  label lp pad tc fs))
  /\ appends_only (point_source x y label lp pad tc fs)
  /\ (forall fillcolour,
         appends_only (beam_dump x y size angle colour fillcolour
                                 label lp pad tc fs))
  /\ (forall fill fillcolour,
         appends_only (generic_circle x y size colour fill fillcolour
                                      label lp pad tc fs)).
Proof.
  repeat apply conj; intros.
  - unfold mirror. appends_method.
  - unfold convex_lens. appends_method.
  - unfold concave_mirror. appends_method.
  - unfold concave_lens. appends_method.
  - appends_method.
  - appends_method.
  - unfold beamsplitter_cube. appends_method.
  - appends_method.
  - unfold box_source. appends_method.
  - unfold point_source. appends_method.
  - unfold beam_dump. appends_method.
  - unfold generic_circle. appends_method.
Qed.

(** ** The rotated rectangle *)

Ltac calls_eq :=
  repeat match goal with
         | |- _ :: _ = _ :: _ => apply (f_equal2 (@cons backend_call))
         | |- Plot _ _ _ = Plot _ _ _ =>
             apply (f_equal3 Plot); [list_R_eq | list_R_eq | reflexivity]
         | |- FillBetween _ _ _ _ _ = FillBetween _ _ _ _ _ =>
             apply (f_equal5 FillBetween);
             [list_R_eq | list_R_eq | list_R_eq | reflexivity | reflexivity]
         | |- @nil backend_call = [] => reflexivity
         end.

Lemma dist_sym (p q : R * R) : dist (p, q) = dist (q, p).
Proof. unfold dist. cbn [fst snd]. f_equal. unfold Rsqr. ring. Qed.

Lemma box_sides (x y size_x size_y angle : R) :
  dist (bottom_left x y size_x size_y angle, bottom_right x y size_x size_y angle)
  = Rabs size_x
  /\ dist (bottom_right x y size_x size_y angle, top_right x y size_x size_y angle)
     = Rabs size_y
  /\ dist (top_right x y size_x size_y angle, top_left x y size_x size_y angle)
     = Rabs size_x
  /\ dist (top_left x y size_x size_y angle, bottom_left x y size_x size_y angle)
     = Rabs size_y.
Proof.
  unfold bottom_left, bottom_right, top_right, top_left.
  rewrite !dist_rotate_point. repeat apply conj.
  - replace (x + size_x / 2) with (x - size_x / 2 + size_x) by field.
    apply dist_horizontal.
  - replace (y + size_y / 2) with (y - size_y / 2 + size_y) by field.
    apply dist_vertical.
  - rewrite dist_sym.
    replace (x + size_x / 2) with (x - size_x / 2 + size_x) by field.
    apply dist_horizontal.
  - rewrite dist_sym.
    replace (y + size_y / 2) with (y - size_y / 2 + size_y) by field.
    apply dist_vertical.
Qed.

Lemma box_diagonals (x y size_x size_y angle : R) :
  Tools.get_midpoint (bottom_left x y size_x size_y angle,
                      top_right x y size_x size_y angle) = (x, y)
  /\ Tools.get_midpoint (bottom_right x y size_x size_y angle,
                         top_left x y size_x size_y angle) = (x, y)
  /\ dist (bottom_left x y size_x size_y angle, top_right x y size_x size_y angle)
     = dist (bottom_right x y size_x size_y angle, top_left x y size_x size_y angle).
Proof.
  unfold bottom_left, bottom_right, top_right, top_left.
  rewrite !midpoint_rotate_point, !dist_rotate_point. repeat apply conj.
  - unfold Tools.get_midpoint, Tools.rotate_point. cbn [fst snd].
    rewrite half_decimal. f_equal; field.
  - unfold Tools.get_midpoint, Tools.rotate_point. cbn [fst snd].
    rewrite half_decimal. f_equal; field.
  - unfold dist. cbn [fst snd]. f_equal. unfold Rsqr. field.
Qed.

(** X10.  With [standalone=False], [box] returns four corners that form a
    rectangle whatever the angle: opposite sides have lengths [|size_x|] and
    [|size_y|] (the aspect ratio of the table plays no part), the diagonals
    are equal and both have [(x, y)] as their midpoint.  At angle 0 the
    corners are the axis-aligned ones, anticlockwise from the bottom left. *)
Theorem box_corners_form_rectangle
        (x y size_x size_y angle : R) (colour linestyle : string)
        (label : option string) (lp : string) (pad : R) (tc : string) (fs : R)
        (self : OpticalTable.t) :
  (exists c0 c1 c2 c3,
      snd (box x y size_x size_y angle colour linestyle false
               label lp pad tc fs self)
      = Ok (BoxCorners [c0; c1; c2; c3])
      /\ dist (c0, c1) = Rabs size_x /\ dist (c1, c2) = Rabs size_y
      /\ dist (c2, c3) = Rabs size_x /\ dist (c3, c0) = Rabs size_y
      /\ Tools.get_midpoint (c0, c2) = (x, y)
      /\ Tools.get_midpoint (c1, c3) = (x, y)
      /\ dist (c0, c2) = dist (c1, c3))
  /\ snd (box x y size_x size_y 0 colour linestyle false label lp pad tc fs self)
     = Ok (BoxCorners [(x - size_x / 2, y - size_y / 2);
                       (x + size_x / 2, y - size_y / 2);
                       (x + size_x / 2, y + size_y / 2);
                       (x - size_x / 2, y + size_y / 2)]).
Proof.
  split.
  - do 4 eexists. rewrite box_run. cbn [ret snd]. split; [reflexivity|].
    destruct (box_sides x y size_x size_y angle) as (H1 & H2 & H3 & H4).
    destruct (box_diagonals x y size_x size_y angle) as (D1 & D2 & D3).
    repeat apply conj; assumption.
  - rewrite box_run. cbn [ret snd].
    unfold bottom_left, bottom_right, top_right, top_left.
    rewrite !rotate_point_0. reflexivity.
Qed.

(** X11.  For each valid side, the anchor [box_source] returns is the
    midpoint of the unrotated side turned by [angle] about the centre of the
    box, so it lies at distance [|size_x| / 2] (left, right) or
    [|size_y| / 2] (top, bottom) from the centre, and the anchors of
    opposite sides have the centre as their midpoint. *)
Theorem box_source_anchor_turns_with_box
        (x y size_x size_y angle : R) (colour lp : string) (pad : R)
        (tc : string) (fs : R) (self : OpticalTable.t) :
  exists top bottom left right,
    snd (box_source x y size_x size_y angle "top" colour None lp pad tc fs self)
    = Ok top
    /\ snd (box_source x y size_x size_y angle "bottom" colour None lp pad tc
                       fs self) = Ok bottom
    /\ snd (box_source x y size_x size_y angle "left" colour None lp pad tc
                       fs self) = Ok left
    /\ snd (box_source x y size_x size_y angle "right" colour None lp pad tc
                       fs self) = Ok right
    /\ anchor top = Tools.rotate_point (x, y + size_y / 2) angle (x, y)
    /\ anchor bottom = Tools.rotate_point (x, y - size_y / 2) angle (x, y)
    /\ anchor left = Tools.rotate_point (x - size_x / 2, y) angle (x, y)
    /\ anchor right = Tools.rotate_point (x + size_x / 2, y) angle (x, y)
    /\ dist ((x, y), anchor top) = Rabs (size_y / 2)
    /\ dist ((x, y), anchor right) = Rabs (size_x / 2)
    /\ Tools.get_midpoint (anchor top, anchor bottom) = (x, y)
    /\ Tools.get_midpoint (anchor left, anchor right) = (x, y).
Proof.
  assert (Hc : Tools.rotate_point (x, y) angle (x, y) = (x, y)).
  { unfold Tools.rotate_point. cbn [fst snd]. f_equal; ring. }
  assert (Ht : Tools.get_midpoint (top_right x y size_x size_y angle,
                                   top_left x y size_x size_y angle)
               = Tools.rotate_point (x, y + size_y / 2) angle (x, y)).
  { unfold top_right, top_left. rewrite midpoint_rotate_point. f_equal.
    unfold Tools.get_midpoint. cbn [fst snd]. rewrite half_decimal.
    f_equal; field. }
  assert (Hb : Tools.get_midpoint (bottom_left x y size_x size_y angle,
                                   bottom_right x y size_x size_y angle)
               = Tools.rotate_point (x, y - size_y / 2) angle (x, y)).
  { unfold bottom_left, bottom_right. rewrite midpoint_rotate_point. f_equal.
    unfold Tools.get_midpoint. cbn [fst snd]. rewrite half_decimal.
    f_equal; field. }
  assert (Hl : Tools.get_midpoint (bottom_left x y size_x size_y angle,
                                   top_left x y size_x size_y angle)
               = Tools.rotate_point (x - size_x / 2, y) angle (x, y)).
  { unfold bottom_left, top_left. rewrite midpoint_rotate_point. f_equal.
    unfold Tools.get_midpoint. cbn [fst snd]. rewrite half_decimal.
    f_equal; field. }
  assert (Hr : Tools.get_midpoint (bottom_right x y size_x size_y angle,
                                   top_right x y size_x size_y angle)
               = Tools.rotate_point (x + size_x / 2, y) angle (x, y)).
  { unfold bottom_right, top_right. rewrite midpoint_rotate_point. f_equal.
    unfold Tools.get_midpoint. cbn [fst snd]. rewrite half_decimal.
    f_equal; field. }
  do 4 eexists.
  split; [erewrite box_source_run by (cbn [In]; eauto 6); reflexivity|].
  split; [erewrite box_source_run by (cbn [In]; eauto 6); reflexivity|].
  split; [erewrite box_source_run by (cbn [In]; eauto 6); reflexivity|].
  split; [erewrite box_source_run by (cbn [In]; eauto 6); reflexivity|].
  unfold anchor. cbn [OpticalElement.x OpticalElement.y].
  rewrite <- !surjective_pairing, Ht, Hb, Hl, Hr.
  repeat apply conj; try reflexivity.
  - rewrite <- Hc at 1. rewrite dist_rotate_point. apply dist_vertical.
  - rewrite <- Hc at 1. rewrite dist_rotate_point. apply dist_horizontal.
  - rewrite midpoint_rotate_point.
    match goal with
    | |- Tools.rotate_point ?m _ _ = _ => assert (E : m = (x, y))
    end.
    { unfold Tools.get_midpoint. cbn [fst snd]. rewrite half_decimal.
      f_equal; field. }
    rewrite E. exact Hc.
  - rewrite midpoint_rotate_point.
    match goal with
    | |- Tools.rotate_point ?m _ _ = _ => assert (E : m = (x, y))
    end.
    { unfold Tools.get_midpoint. cbn [fst snd]. rewrite half_decimal.
      f_equal; field. }
    rewrite E. exact Hc.
Qed.

(** ** transmissive_plate, transmissive_cube and beam_dump *)

Lemma transmissive_plate_run (x y size angle : R) (colour : string)
      (offset_factor : R) (fill : bool) (fillcolour lp : string) (pad : R)
      (tc : string) (fs : R) (zorder : Z) (self : OpticalTable.t) :
  let w := size * aspect_ratio self in
  let h := 2 * offset_factor * aspect_ratio self in
  let cap := mk_kw colour None None (Some zorder) None in
  transmissive_plate x y size angle colour offset_factor fill fillcolour
                     None lp pad tc fs zorder self
  = (OpticalTable.mk
       (ax self
        ++ [edge (kw_color "k") (bottom_left x y w h angle, bottom_right x y w h angle);
            edge (kw_color "k") (top_left x y w h angle, top_right x y w h angle);
            edge cap (bottom_left x y w h angle, top_left x y w h angle);
            edge cap (bottom_right x y w h angle, top_right x y w h angle)]
        ++ (if fill then
              [FillBetween [fst (bottom_left x y w h angle);
                            fst (bottom_right x y w h angle)]
                           [snd (bottom_left x y w h angle);
                            snd (bottom_left x y w h angle)]
                           [snd (top_left x y w h angle);
                            snd (top_left x y w h angle)]
                           fillcolour zorder]
            else []))
       (aspect_ratio self),
     Ok (OpticalElement.mk x y "t" (Some angle))).
Proof.
  intros w h cap.
  destruct fill.
  all: match goal with
       | |- ?lhs = _ =>
           eassert (H : lhs
                        = (OpticalTable.mk (ax self ++ _) (aspect_ratio self),
                           Ok (OpticalElement.mk x y "t" (Some angle))))
       end.
  1, 3: unfold transmissive_plate; unfold bind at 1; unfold self_aspect_ratio;
    unfold bind at 1; rewrite angled_line_run;
    unfold bind at 1; rewrite angled_line_run;
    cbn [ax aspect_ratio]; unfold bind, lift, coords, ax_call, ret, set_label;
    cbn [ax aspect_ratio]; rewrite <- !app_assoc; cbn [app]; reflexivity.
  all: rewrite H; f_equal; f_equal; f_equal;
    unfold edge, rotated_segment, bottom_left, bottom_right, top_left,
      top_right, Tools.rotate_point, Tools.cosd, Tools.sind, w, h, cap,
      kw_color;
    cbn [fst snd app]; calls_eq.
Qed.

(** X12.  [transmissive_plate] with no label and no fill draws the four
    sides of the rectangle centred at [(x, y)] and rotated by [angle] whose
    long sides have length [|size * aspect_ratio|] and whose short sides have
    length [|2 * offset_factor * aspect_ratio|].  The long sides are always
    black; [colour] and [zorder] only reach the short sides.  The handle is
    transmissive, anchored at [(x, y)]. *)
Theorem transmissive_plate_draws_rectangle
        (x y size angle : R) (colour : string) (offset_factor : R)
        (fillcolour lp : string) (pad : R) (tc : string) (fs : R) (zorder : Z)
        (self : OpticalTable.t) :
  let w := size * aspect_ratio self in
  let h := 2 * offset_factor * aspect_ratio self in
  let cap := mk_kw colour None None (Some zorder) None in
  transmissive_plate x y size angle colour offset_factor false fillcolour
                     None lp pad tc fs zorder self
  = (OpticalTable.mk
       (ax self
        ++ [edge (kw_color "k") (bottom_left x y w h angle, bottom_right x y w h angle);
            edge (kw_color "k") (top_left x y w h angle, top_right x y w h angle);
            edge cap (bottom_left x y w h angle, top_left x y w h angle);
            edge cap (bottom_right x y w h angle, top_right x y w h angle)])
       (aspect_ratio self),
     Ok (OpticalElement.mk x y "t" (Some angle)))
  /\ dist (bottom_left x y w h angle, bottom_right x y w h angle) = Rabs w
  /\ dist (top_left x y w h angle, top_right x y w h angle) = Rabs w
  /\ dist (bottom_left x y w h angle, top_left x y w h angle) = Rabs h
  /\ dist (bottom_right x y w h angle, top_right x y w h angle) = Rabs h.
Proof.
  intros w h cap.
  destruct (box_sides x y w h angle) as (H1 & H2 & H3 & H4).
  repeat apply conj.
  - rewrite transmissive_plate_run. fold w h cap. rewrite app_nil_r.
    reflexivity.
  - exact H1.
  - rewrite dist_sym. exact H3.
  - rewrite dist_sym. exact H4.
  - exact H2.
Qed.

Lemma transmissive_cube_run (x y size angle : R) (colour lp : string)
      (pad : R) (tc : string) (fs : R) (self : OpticalTable.t) :
  let w := size * aspect_ratio self in
  let cap := mk_kw colour None None (Some 2%Z) None in
  transmissive_cube x y size angle colour None lp pad tc fs self
  = (OpticalTable.mk
       (ax self
        ++ [edge (kw_color "k") (bottom_left x y w w angle, bottom_right x y w w angle);
            edge (kw_color "k") (top_left x y w w angle, top_right x y w w angle);
            edge cap (bottom_left x y w w angle, top_left x y w w angle);
            edge cap (bottom_right x y w w angle, top_right x y w w angle)])
       (aspect_ratio self),
     Ok (OpticalElement.mk x y "t" (Some angle))).
Proof.
  intros w cap. unfold transmissive_cube. unfold bind at 1.
  rewrite transmissive_plate_run.
  replace (2 * (size * 0.5) * aspect_ratio self) with w
    by (unfold w; rewrite half_decimal; field).
  fold w. rewrite app_nil_r. reflexivity.
Qed.

(** X13.  [transmissive_cube] with no label draws a square: the four sides
    of the box of side [|size * aspect_ratio|] centred at [(x, y)] and
    rotated by [angle], all four of that length. *)
Theorem transmissive_cube_draws_square
        (x y size angle : R) (colour lp : string) (pad : R) (tc : string)
        (fs : R) (self : OpticalTable.t) :
  let w := size * aspect_ratio self in
  let cap := mk_kw colour None None (Some 2%Z) None in
  transmissive_cube x y size angle colour None lp pad tc fs self
  = (OpticalTable.mk
       (ax self
        ++ [edge (kw_color "k") (bottom_left x y w w angle, bottom_right x y w w angle);
            edge (kw_color "k") (top_left x y w w angle, top_right x y w w angle);
            edge cap (bottom_left x y w w angle, top_left x y w w angle);
            edge cap (bottom_right x y w w angle, top_right x y w w angle)])
       (aspect_ratio self),
     Ok (OpticalElement.mk x y "t" (Some angle)))
  /\ dist (bottom_left x y w w angle, bottom_right x y w w angle) = Rabs w
  /\ dist (top_left x y w w angle, top_right x y w w angle) = Rabs w
  /\ dist (bottom_left x y w w angle, top_left x y w w angle) = Rabs w
  /\ dist (bottom_right x y w w angle, top_right x y w w angle) = Rabs w.
Proof.
  intros w cap.
  destruct (box_sides x y w w angle) as (H1 & H2 & H3 & H4).
  repeat apply conj.
  - apply transmissive_cube_run.
  - exact H1.
  - rewrite dist_sym. exact H3.
  - rewrite dist_sym. exact H4.
  - exact H2.
Qed.

(** X14.  [beam_dump] with no label draws a filled plate: the rectangle of
    [transmissive_plate] with offset factor 0.05 at draw priority 10, then
    one [fill_between] over the x-range of the bottom side, between the
    heights of the bottom-left and the top-left corner.  The handle it
    returns has no orientation, although an angle was given. *)
Theorem beam_dump_is_filled_plate_without_orientation
        (x y size angle : R) (colour fillcolour lp : string) (pad : R)
        (tc : string) (fs : R) (self : OpticalTable.t) :
  let w := size * aspect_ratio self in
  let h := 2 * 0.05 * aspect_ratio self in
  let cap := mk_kw colour None None (Some 10%Z) None in
  beam_dump x y size angle colour fillcolour None lp pad tc fs self
  = (OpticalTable.mk
       (ax self
        ++ [edge (kw_color "k") (bottom_left x y w h angle, bottom_right x y w h angle);
            edge (kw_color "k") (top_left x y w h angle, top_right x y w h angle);
            edge cap (bottom_left x y w h angle, top_left x y w h angle);
            edge cap (bottom_right x y w h angle, top_right x y w h angle);
            FillBetween [fst (bottom_left x y w h angle);
                         fst (bottom_right x y w h angle)]
                        [snd (bottom_left x y w h angle);
                         snd (bottom_left x y w h angle)]
                        [snd (top_left x y w h angle);
                         snd (top_left x y w h angle)]
                        fillcolour 10])
       (aspect_ratio self),
     Ok (OpticalElement.mk x y "t" None)).
Proof.
  intros w h cap.
  unfold beam_dump. unfold bind at 1. rewrite transmissive_plate_run.
  fold w h cap. reflexivity.
Qed.

(** ** Labels *)

Lemma set_label_valid (x y size : R) (l lp : string) (pad : R) (tc : string)
      (fs : R) (self : OpticalTable.t) :
  str_in lp label_sides = true ->
  exists p,
    Tools.get_label_coords lp x y size pad = Ok p
    /\ set_label x y size (Some l) lp pad tc fs self
       = (OpticalTable.mk
            (ax self ++ [Text (fst p) (snd p) (Str l) (Some tc) (Some fs)])
            (aspect_ratio self),
          Ok tt).
Proof.
  intros H. apply str_in_cases in H. unfold label_sides in H. cbn [In] in H.
  destruct H as [<-|[<-|[<-|[<-|[<-|[]]]]]]; eexists; split; reflexivity.
Qed.

(** X15.  [mirror] with a label at a valid position draws its line and then
    the label text, in the given colour and font size, at the point
    [get_label_coords] computes from the size of the mirror and the padding;
    for the position bottom that is [size/2 + labelpad] below [(x, y)]. *)
Theorem mirror_draws_line_then_label
        (x y size angle : R) (colour l lp : string) (pad : R) (tc : string)
        (fs : R) (self : OpticalTable.t) :
  let line := edge (kw_color colour)
                   (rotated_segment x y (size * aspect_ratio self) angle) in
  (str_in lp label_sides = true ->
   exists p,
     Tools.get_label_coords lp x y size pad = Ok p
     /\ mirror x y size angle colour (Some l) lp pad tc fs self
        = (OpticalTable.mk
             (ax self ++ [line; Text (fst p) (snd p) (Str l) (Some tc) (Some fs)])
             (aspect_ratio self),
           Ok (OpticalElement.mk x y "r" (Some angle))))
  /\ mirror x y size angle colour (Some l) "bottom" pad tc fs self
     = (OpticalTable.mk
          (ax self ++ [line; Text x (y - (size * 0.5 + pad)) (Str l) (Some tc)
                                  (Some fs)])
          (aspect_ratio self),
        Ok (OpticalElement.mk x y "r" (Some angle))).
Proof.
  intros line. split.
  - intros H.
    destruct (set_label_valid x y size l lp pad tc fs
                (OpticalTable.mk (ax self ++ [line]) (aspect_ratio self)) H)
      as (p & Hp & Hrun).
    exists p. split; [exact Hp|].
    rewrite mirror_run. fold line. unfold bind at 1. rewrite Hrun.
    cbn [ax aspect_ratio]. rewrite <- app_assoc. reflexivity.
  - destruct (set_label_valid x y size l "bottom" pad tc fs
                (OpticalTable.mk (ax self ++ [line]) (aspect_ratio self))
                eq_refl)
      as (p & Hp & Hrun).
    cbn in Hp. injection Hp as <-.
    rewrite mirror_run. fold line. unfold bind at 1. rewrite Hrun.
    cbn [ax aspect_ratio fst snd]. rewrite <- app_assoc. reflexivity.
Qed.

Lemma mirror_draws_line_then_label_witness :
  exists p,
    Tools.get_label_coords "centre" 1 2 3 0.25 = Ok p
    /\ mirror 1 2 3 45 "k" (Some "M1"%string) "centre" 0.25 "k" 8
              (OpticalTable.mk [] 1)
       = (OpticalTable.mk
            [edge (kw_color "k") (rotated_segment 1 2 (3 * 1) 45);
             Text (fst p) (snd p) (Str "M1") (Some "k"%string) (Some 8)]
            1,
          Ok (OpticalElement.mk 1 2 "r" (Some 45))).
Proof.
  apply (proj1 (mirror_draws_line_then_label 1 2 3 45 "k" "M1" "centre" 0.25
                  "k" 8 (OpticalTable.mk [] 1))).
  reflexivity.
Defined.

(** ** Lenses *)

(** X16.  [convex_lens] with no label draws its flat face, the line of
    [mirror], and then a half ellipse centred at [(x, y)] of width
    [aspect_ratio * size] and height [width / lens_factor], tilted by
    [angle].  With [lens_factor] zero the division raises
    [ZeroDivisionError] when the flat face is already drawn. *)
Theorem convex_lens_line_then_arc
        (x y size angle : R) (colour : string) (lens_factor : R)
        (lp : string) (pad : R) (tc : string) (fs : R)
        (self : OpticalTable.t) :
  let line := edge (kw_color colour)
                   (rotated_segment x y (size * aspect_ratio self) angle) in
  let w := aspect_ratio self * size in
  (lens_factor <> 0 ->
   convex_lens x y size angle colour lens_factor None lp pad tc fs self
   = (OpticalTable.mk
        (ax self ++ [line; AddArc (x, y) w (w / lens_factor) angle 0 180 colour])
        (aspect_ratio self),
      Ok (OpticalElement.mk x y "t" (Some angle))))
  /\ convex_lens x y size angle colour 0 None lp pad tc fs self
     = (OpticalTable.mk (ax self ++ [line]) (aspect_ratio self),
        Raise ZeroDivisionError).
Proof.
  intros line w. split.
  - intros Hl. unfold convex_lens. unfold bind at 1. rewrite angled_line_run.
    fold line. unfold bind at 1. unfold set_label, ret at 1.
    unfold bind at 1. unfold self_aspect_ratio. cbn [aspect_ratio].
    unfold bind at 1. unfold lift at 1. rewrite (truediv_nonzero _ _ Hl).
    unfold bind, ax_call, lift. cbn [ax aspect_ratio].
    rewrite <- app_assoc. reflexivity.
  - unfold convex_lens. unfold bind at 1. rewrite angled_line_run.
    fold line. unfold bind at 1. unfold set_label, ret at 1.
    unfold bind at 1. unfold self_aspect_ratio. cbn [aspect_ratio].
    unfold bind at 1. unfold lift at 1. unfold truediv.
    destruct (Req_dec_T 0 0) as [_|Hn]; [reflexivity | destruct (Hn eq_refl)].
Qed.

Lemma convex_lens_line_then_arc_witness :
  convex_lens 0 0 2 90 "k" 2 None "top" 0.25 "k" 8 (OpticalTable.mk [] 1)
  = (OpticalTable.mk
       [edge (kw_color "k") (rotated_segment 0 0 (2 * 1) 90);
        AddArc (0, 0) (1 * 2) (1 * 2 / 2) 90 0 180 "k"]
       1,
     Ok (OpticalElement.mk 0 0 "t" (Some 90))).
Proof.
  apply (proj1 (convex_lens_line_then_arc 0 0 2 90 "k" 2 "top" 0.25 "k" 8
                  (OpticalTable.mk [] 1))).
  lra.
Defined.

Lemma AddArc_eq (c c' : R * R) (w w' h h' a t1 t2 : R) (col : string) :
  c = c' -> w = w' -> h = h' ->
  AddArc c w h a t1 t2 col = AddArc c' w' h' a t1 t2 col.
Proof. intros -> -> ->. reflexivity. Qed.

(** X17.  [concave_lens] with no label and a non-zero [lens_factor] draws
    three sides of the rectangle of [transmissive_plate] (the bottom side in
    black and the two short sides in [colour]; the top side is computed but
    not drawn) and closes it with the lower half of an ellipse centred at
    the middle of the top side, of width [aspect_ratio * size] and height
    [width / lens_factor].  The handle is anchored at [(x, y)]. *)
Theorem concave_lens_three_sides_and_arc
        (x y size angle : R) (colour : string) (offset_factor lens_factor : R)
        (lp : string) (pad : R) (tc : string) (fs : R)
        (self : OpticalTable.t) :
  let w := size * aspect_ratio self in
  let h := 2 * offset_factor * aspect_ratio self in
  lens_factor <> 0 ->
  concave_lens x y size angle colour offset_factor lens_factor
               None lp pad tc fs self
  = (OpticalTable.mk
       (ax self
        ++ [edge (kw_color "k") (bottom_left x y w h angle, bottom_right x y w h angle);
            edge (kw_color colour) (bottom_left x y w h angle, top_left x y w h angle);
            edge (kw_color colour) (bottom_right x y w h angle, top_right x y w h angle);
            AddArc (Tools.rotate_point (x, y + h / 2) angle (x, y))
                   (aspect_ratio self * size)
                   (aspect_ratio self * size / lens_factor) angle 180 360
                   colour])
       (aspect_ratio self),
     Ok (OpticalElement.mk x y "t" (Some angle))).
Proof.
  intros w h Hl.
  match goal with
  | |- ?lhs = _ =>
      eassert (H : lhs
                   = (OpticalTable.mk (ax self ++ _) (aspect_ratio self),
                      Ok (OpticalElement.mk x y "t" (Some angle))))
  end.
  { unfold concave_lens. unfold bind at 1. unfold self_aspect_ratio.
    unfold bind at 1. rewrite angled_line_run.
    unfold bind at 1. unfold angled_line at 1.
    unfold bind at 1. unfold self_aspect_ratio. cbn [ax aspect_ratio].
    unfold bind at 1. unfold ret at 1. unfold bind at 1. unfold ret at 1.
    unfold bind at 1. unfold lift at 1. unfold coords at 1.
    unfold bind at 1. unfold lift at 1. unfold coords at 1.
    cbv iota beta.
    unfold bind at 1. unfold ax_call at 1. unfold bind at 1. unfold ax_call at 1.
    cbn [ax aspect_ratio].
    unfold bind at 1. unfold lift at 1. rewrite (truediv_nonzero _ _ Hl).
    unfold bind, ax_call, set_label, ret, lift. cbn [ax aspect_ratio].
    rewrite <- !app_assoc. cbn [app]. reflexivity. }
  rewrite H. f_equal. f_equal. f_equal.
  unfold edge, rotated_segment, bottom_left, bottom_right, top_left,
    top_right, Tools.rotate_point, Tools.cosd, Tools.sind, w, h, kw_color.
  cbn [fst snd].
  apply (f_equal2 (@cons backend_call)); [calls_eq|].
  apply (f_equal2 (@cons backend_call)); [calls_eq|].
  apply (f_equal2 (@cons backend_call)); [calls_eq|].
  apply (f_equal2 (@cons backend_call)); [|reflexivity].
  apply AddArc_eq; [f_equal; field | reflexivity | reflexivity].
Qed.

Lemma concave_lens_three_sides_and_arc_witness :
  exists calls,
    concave_lens 0 0 2 0 "k" 0.05 4 None "top" 0.25 "k" 8 (OpticalTable.mk [] 1)
    = (OpticalTable.mk calls 1, Ok (OpticalElement.mk 0 0 "t" (Some 0)))
    /\ List.length calls = 4%nat.
Proof.
  eexists. split.
  - apply (concave_lens_three_sides_and_arc 0 0 2 0 "k" 0.05 4 "top" 0.25 "k" 8
             (OpticalTable.mk [] 1)).
    lra.
  - reflexivity.
Defined.

(** ** point_source and generic_circle *)

(** X18.  [point_source] never draws: the table is left as it was in every
    case.  With no label, or with the empty string as label, it returns the
    transmissive handle at [(x, y)] with no orientation; with any other label
    it raises [TypeError], whatever the label position, so a point source
    cannot be labelled. *)
Theorem point_source_never_draws
        (x y : R) (label : option string) (lp : string) (pad : R)
        (tc : string) (fs : R) (self : OpticalTable.t) :
  point_source x y label lp pad tc fs self
  = (self,
     match label with
     | None => Ok (OpticalElement.mk x y "t" None)
     | Some l => if (l =? "")%string
                 then Ok (OpticalElement.mk x y "t" None)
                 else Raise TypeError
     end).
Proof. apply point_source_run. Qed.

(** X19.  [generic_circle] looks at the label before it adds the circle.
    With no label it adds one circle of radius [size] centred at [(x, y)];
    with a label at a valid position the text comes first and the circle
    second; with a label at an invalid position it raises [ValueError] and
    nothing at all has been drawn. *)
Theorem generic_circle_checks_label_before_drawing
        (x y size : R) (colour : string) (fill : bool) (fillcolour : string)
        (l lp : string) (pad : R) (tc : string) (fs : R)
        (self : OpticalTable.t) :
  let circle := AddCircle (x, y) size colour fill fillcolour in
  generic_circle x y size colour fill fillcolour None lp pad tc fs self
  = (OpticalTable.mk (ax self ++ [circle]) (aspect_ratio self),
     Ok (OpticalElement.mk x y "t" None))
  /\ (if str_in lp label_sides then
        exists p,
          Tools.get_label_coords lp x y size pad = Ok p
          /\ generic_circle x y size colour fill fillcolour (Some l) lp pad tc
                            fs self
             = (OpticalTable.mk
                  (ax self ++ [Text (fst p) (snd p) (Str l) (Some tc) (Some fs);
                               circle])
                  (aspect_ratio self),
                Ok (OpticalElement.mk x y "t" None))
      else
        exists msg,
          generic_circle x y size colour fill fillcolour (Some l) lp pad tc
                         fs self
          = (self, Raise (ValueError msg))).
Proof.
  intros circle. split; [reflexivity|].
  destruct (str_in lp label_sides) eqn:H.
  - destruct (set_label_valid x y size l lp pad tc fs self H) as (p & Hp & Hrun).
    exists p. split; [exact Hp|].
    unfold generic_circle. unfold bind at 1. rewrite Hrun.
    unfold bind, ax_call, lift. cbn [ax aspect_ratio].
    rewrite <- app_assoc. reflexivity.
  - eexists. unfold generic_circle. unfold bind at 1. unfold set_label.
    unfold bind at 1. unfold lift at 1.
    rewrite (get_label_coords_invalid _ _ _ _ _ H). reflexivity.
Qed.

(** ** More on table construction *)

Lemma is_integer_0_div (gs : R) : is_integer (0 / gs) = true.
Proof.
  replace (0 / gs) with (IZR 0) by (unfold Rdiv; ring). apply is_integer_IZR.
Qed.

Lemma create_width_zero (length sf : R) (ec : string) (gs : R) (gc : string)
      (se sg sl : bool) :
  exists e, create length 0 sf ec gs gc se sg sl = Raise e.
Proof.
  unfold create, __init__.
  unfold bind at 1. unfold bind at 1. unfold bind at 1. unfold bind at 1.
  unfold bind at 1. unfold bind at 1. unfold plt at 1 2 3 4 5 6. cbn [app].
  destruct sg.
  - unfold bind at 1. unfold bind at 1. unfold lift at 1.
    unfold truediv at 1.
    destruct (Req_dec_T gs 0) as [Hgs|Hgs]; [eexists; reflexivity|].
    unfold bind at 1.
    destruct (is_integer (length / gs)); [|eexists; reflexivity].
    unfold ret at 1. unfold bind at 1. unfold lift at 1.
    rewrite (truediv_nonzero _ _ Hgs). unfold bind at 1.
    rewrite is_integer_0_div. unfold ret at 1.
    unfold bind at 1. rewrite for_plt.
    unfold bind at 1. rewrite for_plt.
    destruct sl.
    + unfold bind at 1. rewrite for_plt. rewrite for_plt.
      unfold lift, truediv.
      destruct (Req_dec_T 0 0) as [_|Hn]; [|destruct (Hn eq_refl)].
      eexists. reflexivity.
    + unfold ret at 1. unfold lift, truediv.
      destruct (Req_dec_T 0 0) as [_|Hn]; [|destruct (Hn eq_refl)].
      eexists. reflexivity.
  - unfold bind, ret, lift, truediv.
    destruct (Req_dec_T 0 0) as [_|Hn]; [|destruct (Hn eq_refl)].
    eexists. reflexivity.
Qed.

Lemma create_spacing_zero (length width sf : R) (ec gc : string)
      (se sl : bool) :
  create length width sf ec 0 gc se true sl = Raise ZeroDivisionError.
Proof.
  unfold create, __init__.
  unfold bind at 1. unfold bind at 1. unfold bind at 1. unfold bind at 1.
  unfold bind at 1. unfold bind at 1. unfold plt at 1 2 3 4 5 6. cbn [app].
  unfold bind at 1. unfold bind at 1. unfold lift at 1. unfold truediv at 1.
  destruct (Req_dec_T 0 0) as [_|Hn]; [reflexivity | destruct (Hn eq_refl)].
Qed.

(** X20.  Without a grid the grid spacing is never looked at: the table is
    built for every spacing as soon as the width is not zero, with the four
    edges of the table as its only lines and [length / width] as its aspect
    ratio.  A width of zero never gives a table, with or without a grid, and
    a grid with spacing zero raises [ZeroDivisionError]. *)
Theorem create_without_grid_and_zero_arguments
        (length width sf : R) (ec : string) (gs : R) (gc : string)
        (se sg sl : bool) :
  (width <> 0 ->
   create length width sf ec gs gc se false sl
   = Ok (OpticalTable.mk (table_frame length width sf ec se) (length / width)))
  /\ (exists e, create length 0 sf ec gs gc se sg sl = Raise e)
  /\ create length width sf ec 0 gc se true sl = Raise ZeroDivisionError.
Proof.
  repeat apply conj.
  - apply create_no_grid.
  - apply create_width_zero.
  - apply create_spacing_zero.
Qed.

Lemma create_without_grid_and_zero_arguments_witness :
  create 20 10 10 "k" 3 "gray" true false false
  = Ok (OpticalTable.mk (table_frame 20 10 10 "k" true) (20 / 10)).
Proof.
  apply (proj1 (create_without_grid_and_zero_arguments
                  20 10 10 "k" 3 "gray" true false false)).
  lra.
Defined.

Lemma grid_coordinates_multiple (n : nat) (gs side : R) :
  gs <> 0 -> side = INR n * gs ->
  is_integer (side / gs) = true
  /\ grid_coordinates side gs
     = map (fun k => (- side / 2) + (INR k * gs)) (seq 0 (S n)).
Proof.
  intros Hgs ->.
  assert (E : INR n * gs / gs = IZR (Z.of_nat n)).
  { rewrite <- INR_IZR_INZ. field. exact Hgs. }
  split.
  - rewrite E. apply is_integer_IZR.
  - unfold grid_coordinates. rewrite E.
    replace (IZR (Z.of_nat n) + 1) with (IZR (Z.of_nat n + 1))
      by (rewrite plus_IZR; reflexivity).
    rewrite py_int_IZR. unfold range.
    replace (Z.to_nat (Z.of_nat n + 1)) with (S n) by lia.
    reflexivity.
Qed.

Lemma grid_coordinates_negative (n : nat) (gs side : R) :
  gs <> 0 -> side = - (INR (S n) * gs) ->
  is_integer (side / gs) = true /\ grid_coordinates side gs = [].
Proof.
  intros Hgs ->.
  assert (E : - (INR (S n) * gs) / gs = IZR (- Z.of_nat (S n))).
  { rewrite opp_IZR, <- INR_IZR_INZ. field. exact Hgs. }
  split.
  - rewrite E. apply is_integer_IZR.
  - unfold grid_coordinates. rewrite E.
    replace (IZR (- Z.of_nat (S n)) + 1) with (IZR (- Z.of_nat (S n) + 1))
      by (rewrite plus_IZR; reflexivity).
    rewrite py_int_IZR. unfold range.
    replace (Z.to_nat (- Z.of_nat (S n) + 1)) with 0%nat by lia.
    reflexivity.
Qed.

Lemma last_map_seq (f : nat -> R) (n : nat) (d : R) :
  last (map f (seq 0 (S n))) d = f n.
Proof. rewrite seq_S, map_app. cbn [map Nat.add]. apply last_last. Qed.

(** X21.  For a positive whole-number grid spacing [g] (floats divide such
    numbers exactly), a length of [n >= 1] spacings and a width of
    [m >= 1] spacings, both at most 2^52: a table with a grid is built and
    has [n + 1] vertical and [m + 1] horizontal grid lines, evenly spaced
    by the grid spacing, the first on one edge of the table and the last on
    the opposite edge. *)
Theorem grid_lines_span_the_table
        (n m : nat) (g : Z) (length width sf : R) (ec : string) (gs : R)
        (gc : string) (se sl : bool) :
  (0 < g)%Z -> gs = IZR g ->
  (0 < n)%nat -> (0 < m)%nat ->
  length = INR n * gs -> width = INR m * gs ->
  (Z.of_nat n * g <= 4503599627370496)%Z ->
  (Z.of_nat m * g <= 4503599627370496)%Z ->
  let x_lines := map (fun k => (- length / 2) + (INR k * gs)) (seq 0 (S n)) in
  let y_lines := map (fun k => (- width / 2) + (INR k * gs)) (seq 0 (S m)) in
  create length width sf ec gs gc se true sl
  = Ok (OpticalTable.mk
          (table_frame length width sf ec se
           ++ grid_calls length width gc x_lines y_lines sl)
          (length / width))
  /\ List.length x_lines = S n /\ List.length y_lines = S m
  /\ hd 0 x_lines = - length / 2 /\ last x_lines 0 = length / 2
  /\ hd 0 y_lines = - width / 2 /\ last y_lines 0 = width / 2.
Proof.
  intros Hg Egs Hn Hm Hl Hwd _ _ x_lines y_lines.
  assert (Hgs : gs <> 0).
  { rewrite Egs. apply not_0_IZR. lia. }
  assert (Hw : width <> 0).
  { rewrite Hwd. apply Rmult_integral_contrapositive. split; [|exact Hgs].
    apply not_0_INR. lia. }
  destruct (grid_coordinates_multiple n gs length Hgs Hl) as [Ix Ex].
  destruct (grid_coordinates_multiple m gs width Hgs Hwd) as [Iy Ey].
  repeat apply conj.
  - rewrite (create_with_grid _ _ _ _ _ _ _ _ Hgs Hw Ix Iy), Ex, Ey.
    reflexivity.
  - unfold x_lines. rewrite length_map, length_seq. reflexivity.
  - unfold y_lines. rewrite length_map, length_seq. reflexivity.
  - unfold x_lines. cbn [seq map hd INR]. ring.
  - unfold x_lines. rewrite last_map_seq. rewrite Hl. field.
  - unfold y_lines. cbn [seq map hd INR]. ring.
  - unfold y_lines. rewrite last_map_seq. rewrite Hwd. field.
Qed.

Lemma grid_lines_span_the_table_witness :
  create 6 4 10 "k" 2 "gray" true true false
  = Ok (OpticalTable.mk
          (table_frame 6 4 10 "k" true
           ++ grid_calls 6 4 "gray"
                (map (fun k => (- 6 / 2) + (INR k * 2)) (seq 0 4))
                (map (fun k => (- 4 / 2) + (INR k * 2)) (seq 0 3)) false)
          (6 / 4)).
Proof.
  apply (proj1 (grid_lines_span_the_table 3 2 2 6 4 10 "k" 2 "gray" true false
                  ltac:(lia) eq_refl ltac:(lia) ltac:(lia)
                  ltac:(simpl INR; lra) ltac:(simpl INR; lra)
                  ltac:(lia) ltac:(lia))).
Defined.

(** X22.  For a negative whole-number grid spacing [g] on a table whose
    length and width are positive whole multiples of [-g], both at most
    2^52: the two assertions pass, since the quotients are whole, but no
    grid is drawn at all, and the table built is the one built without a
    grid. *)
Theorem grid_with_negative_count_is_empty
        (n m : nat) (g : Z) (length width sf : R) (ec : string) (gs : R)
        (gc : string) (se sl : bool) :
  (g < 0)%Z -> gs = IZR g ->
  length = - (INR (S n) * gs) -> width = - (INR (S m) * gs) ->
  (Z.of_nat (S n) * - g <= 4503599627370496)%Z ->
  (Z.of_nat (S m) * - g <= 4503599627370496)%Z ->
  create length width sf ec gs gc se true sl
  = Ok (OpticalTable.mk (table_frame length width sf ec se) (length / width))
  /\ create length width sf ec gs gc se true sl
     = create length width sf ec gs gc se false sl
  /\ 0 < length /\ 0 < width.
Proof.
  intros Hg Egs Hl Hwd _ _.
  assert (Hneg : gs < 0).
  { rewrite Egs. apply IZR_lt. exact Hg. }
  assert (Hgs : gs <> 0) by lra.
  destruct (grid_coordinates_negative n gs length Hgs Hl) as [Ix Ex].
  destruct (grid_coordinates_negative m gs width Hgs Hwd) as [Iy Ey].
  assert (Hn : 0 < INR (S n)) by (apply lt_0_INR; lia).
  assert (Hm : 0 < INR (S m)) by (apply lt_0_INR; lia).
  assert (Hlp : 0 < length) by (rewrite Hl; nra).
  assert (Hwp : 0 < width) by (rewrite Hwd; nra).
  assert (Hw : width <> 0) by lra.
  assert (E : create length width sf ec gs gc se true sl
              = Ok (OpticalTable.mk (table_frame length width sf ec se)
                                    (length / width))).
  { rewrite (create_with_grid _ _ _ _ _ _ _ _ Hgs Hw Ix Iy), Ex, Ey.
    unfold grid_calls. cbn [map app]. destruct sl; rewrite app_nil_r;
      reflexivity. }
  split; [exact E|]. split; [|split; assumption].
  rewrite E. symmetry. apply create_no_grid. exact Hw.
Qed.

Lemma grid_with_negative_count_is_empty_witness :
  create 10 4 10 "k" (-2) "gray" true true true
  = Ok (OpticalTable.mk (table_frame 10 4 10 "k" true) (10 / 4)).
Proof.
  apply (proj1 (grid_with_negative_count_is_empty 4 1 (-2) 10 4 10 "k" (-2)
                  "gray" true true
                  ltac:(lia) eq_refl
                  ltac:(simpl INR; lra) ltac:(simpl INR; lra)
                  ltac:(lia) ltac:(lia))).
Defined.

(** ** More on the beam router *)

Lemma consecutive_app {A : Type} (l1 l2 : list A) (e : A) :
  consecutive (l1 ++ e :: l2) = consecutive (l1 ++ [e]) ++ consecutive (e :: l2).
Proof.
  unfold consecutive. induction l1 as [|a l1 IH].
  - reflexivity.
  - destruct l1 as [|b l1].
    + cbn. destruct l2; reflexivity.
    + cbn [app tl combine] in *. rewrite IH. reflexivity.
Qed.

Lemma draw_table (self : LaserBeam.t) (tbl : OpticalTable.t)
      (optics : list OpticalElement.t) :
  LaserBeam.table (fst (LaserBeam.draw self (LaserBeam.mk_args tbl optics)))
  = OpticalTable.mk
      (ax tbl ++ (if LaserBeam.divergent self then []
                  else map (segment self) (consecutive optics)))
      (aspect_ratio tbl).
Proof.
  destruct (LaserBeam.divergent self) eqn:Hd.
  - rewrite (draw_divergent self _ Hd). cbn [fst LaserBeam.table].
    rewrite app_nil_r. destruct tbl; reflexivity.
  - rewrite (draw_not_divergent self _ Hd). reflexivity.
Qed.

(** X23.  A beam can be drawn in two legs: drawing it up to a handle and
    then from that handle on leaves the table exactly as drawing the whole
    path in one call does. *)
Theorem draw_in_two_legs
        (self : LaserBeam.t) (tbl : OpticalTable.t)
        (l1 l2 : list OpticalElement.t) (e : OpticalElement.t) :
  let after_first :=
    LaserBeam.table
      (fst (LaserBeam.draw self (LaserBeam.mk_args tbl (l1 ++ [e])))) in
  LaserBeam.table
    (fst (LaserBeam.draw self (LaserBeam.mk_args after_first (e :: l2))))
  = LaserBeam.table
      (fst (LaserBeam.draw self (LaserBeam.mk_args tbl (l1 ++ e :: l2)))).
Proof.
  intros after_first. unfold after_first. rewrite !draw_table.
  cbn [ax aspect_ratio]. destruct (LaserBeam.divergent self).
  - rewrite !app_nil_r. reflexivity.
  - rewrite (consecutive_app l1 l2 e), map_app, app_assoc. reflexivity.
Qed.

Lemma segments_of_anchors (self : LaserBeam.t) (l : list OpticalElement.t) :
  map (segment self) (consecutive l)
  = map (fun pq : (R * R) * (R * R) =>
           Plot [fst (fst pq); fst (snd pq)] [snd (fst pq); snd (snd pq)]
                (LaserBeam.beam_kw self))
        (consecutive (map anchor l)).
Proof.
  unfold consecutive. induction l as [|a l IH]; [reflexivity|].
  destruct l as [|b l]; [reflexivity|].
  cbn [map tl combine] in *. rewrite IH. reflexivity.
Qed.

(** X24.  The beam path only depends on the anchors: two lists of handles
    with the same anchors, whatever their modes and orientations, give the
    same drawing. *)
Theorem draw_depends_on_anchors_only
        (self : LaserBeam.t) (tbl : OpticalTable.t)
        (l1 l2 : list OpticalElement.t) :
  map anchor l1 = map anchor l2 ->
  LaserBeam.table (fst (LaserBeam.draw self (LaserBeam.mk_args tbl l1)))
  = LaserBeam.table (fst (LaserBeam.draw self (LaserBeam.mk_args tbl l2))).
Proof.
  intros H. rewrite !draw_table, !segments_of_anchors, H. reflexivity.
Qed.

Lemma draw_depends_on_anchors_only_witness :
  let tbl := OpticalTable.mk [] 1 in
  let self := LaserBeam.__init__ "r" 1 "-" false None in
  LaserBeam.table
    (fst (LaserBeam.draw self
            (LaserBeam.mk_args tbl [OpticalElement.mk 0 0 "t" None;
                                    OpticalElement.mk 5 0 "r" (Some 45)])))
  = LaserBeam.table
      (fst (LaserBeam.draw self
              (LaserBeam.mk_args tbl [OpticalElement.mk 0 0 "r" (Some 10);
                                      OpticalElement.mk 5 0 "t" None]))).
Proof.
  intros tbl self.
  apply (draw_depends_on_anchors_only self tbl). reflexivity.
Defined.

(** ** angled_line *)

Lemma rotated_segment_half_turn (x y len angle : R) :
  rotated_segment x y len (angle + 180)
  = (snd (rotated_segment x y len angle), fst (rotated_segment x y len angle)).
Proof.
  unfold rotated_segment, Tools.rotate_point. cbn [fst snd].
  rewrite deg_to_rad_plus.
  replace (Tools.deg_to_rad 180) with PI by (unfold Tools.deg_to_rad; field).
  rewrite neg_cos, neg_sin. f_equal; f_equal; field.
Qed.

Lemma angled_line_coords (x y size angle : R) (colour : string) (show : bool)
      (self : OpticalTable.t) :
  let pq := rotated_segment x y (size * aspect_ratio self) angle in
  snd (angled_line x y size angle colour show true self)
  = Ok (Some (fst (fst pq), fst (snd pq), snd (fst pq), snd (snd pq))).
Proof.
  intros pq. unfold angled_line, bind, self_aspect_ratio, ret, ax_call.
  destruct show; cbn [snd]; f_equal; f_equal;
    unfold pq, rotated_segment, Tools.rotate_point, Tools.cosd, Tools.sind;
    cbn [fst snd];
    repeat (apply (f_equal2 pair)); field.
Qed.

(** X25.  With [show=False], [angled_line] draws nothing.  The coordinates
    it returns, shown or not, are those of the two end points of the segment
    it stands for, as [(x1, x2, y1, y2)]; turning the line by 180 degrees
    returns the same segment with its end points exchanged, so the first
    x-coordinate is not always the smaller one. *)
Theorem angled_line_coordinates
        (x y size angle : R) (colour : string) (show get_coords : bool)
        (self : OpticalTable.t) :
  let p := fst (rotated_segment x y (size * aspect_ratio self) angle) in
  let q := snd (rotated_segment x y (size * aspect_ratio self) angle) in
  fst (angled_line x y size angle colour false get_coords self) = self
  /\ snd (angled_line x y size angle colour show true self)
     = Ok (Some (fst p, fst q, snd p, snd q))
  /\ snd (angled_line x y size (angle + 180) colour show true self)
     = Ok (Some (fst q, fst p, snd q, snd p))
  /\ snd (angled_line x y size angle colour show false self) = Ok None.
Proof.
  intros p q. repeat apply conj.
  - unfold angled_line, bind, self_aspect_ratio, ret. destruct self; reflexivity.
  - apply angled_line_coords.
  - rewrite angled_line_coords, rotated_segment_half_turn. reflexivity.
  - unfold angled_line, bind, self_aspect_ratio, ret, ax_call.
    destruct show; reflexivity.
Qed.

(** ** The label of a box *)

(** X26.  A standalone [box] with a label at a valid position draws its
    outline and then the label, and returns the handle anchored at the
    centre.  The label is placed as for an element of size 0, so it sits at
    [(x, y)] or at distance [|labelpad|] from it whatever the size of the
    box, and it is written at the default font size: the [fontsize]
    argument is not used. *)
Theorem box_label_ignores_box_size_and_fontsize
        (x y size_x size_y angle : R) (colour linestyle l lp : string)
        (pad : R) (tc : string) (fs : R) (self : OpticalTable.t) :
  str_in lp label_sides = true ->
  exists p,
    Tools.get_label_coords lp x y 0 pad = Ok p
    /\ box x y size_x size_y angle colour linestyle true (Some l) lp pad tc fs
           self
       = (OpticalTable.mk
            (ax self
             ++ box_outline (mk_kw colour (Some linestyle) None None None)
                            x y size_x size_y angle
             ++ [Text (fst p) (snd p) (Str l) (Some tc)
                      (Some fontparams_fontsize)])
            (aspect_ratio self),
          Ok (BoxElement (OpticalElement.mk x y "t" (Some angle))))
    /\ dist ((x, y), p) = if (lp =? "centre")%string then 0 else Rabs pad.
Proof.
  intros H.
  destruct (set_label_valid x y 0 l lp pad tc fontparams_fontsize
              (OpticalTable.mk
                 (ax self ++ box_outline
                    (mk_kw colour (Some linestyle) None None None)
                    x y size_x size_y angle)
                 (aspect_ratio self)) H) as (p & Hp & Hrun).
  exists p. split; [exact Hp|]. split.
  - rewrite box_run. unfold bind at 1. rewrite Hrun.
    cbn [ax aspect_ratio]. rewrite <- app_assoc. reflexivity.
  - pose proof (get_label_coords_distance lp x y 0 pad H)
      as (p' & Hp' & Hd).
    rewrite Hp in Hp'. injection Hp' as <-. rewrite Hd.
    destruct (lp =? "centre")%string; [reflexivity|].
    f_equal. lra.
Qed.

Lemma box_label_ignores_box_size_and_fontsize_witness :
  exists p,
    Tools.get_label_coords "top" 0 0 0 0.25 = Ok p
    /\ box 0 0 4 2 0 "k" "-" true (Some "Laser"%string) "top" 0.25 "k" 20
           (OpticalTable.mk [] 1)
       = (OpticalTable.mk
            ([] ++ box_outline (mk_kw "k" (Some "-"%string) None None None)
                               0 0 4 2 0
             ++ [Text (fst p) (snd p) (Str "Laser") (Some "k"%string)
                      (Some fontparams_fontsize)])
            1,
          Ok (BoxElement (OpticalElement.mk 0 0 "t" (Some 0))))
    /\ dist ((0, 0), p) = Rabs 0.25.
Proof.
  apply (box_label_ignores_box_size_and_fontsize
           0 0 4 2 0 "k" "-" "Laser" "top" 0.25 "k" 20 (OpticalTable.mk [] 1)).
  reflexivity.
Defined.
